(** * Connection orchestrator of the ESP32 IoT system: [main/wifi_app.c]

    A shallow embedding of the message-driven WiFi state machine: the
    hardware event bridge [wifi_app_event_handler], the two context
    handlers [handle_wifi_connected] / [handle_wifi_disconnected], the
    reset-button worker and the body of the [wifi_app_task] loop.

    The file-scope statics of [wifi_app.c] are the fields of [state];
    the collaborators (WiFi driver, NVS store, HTTP server monitor, RGB
    LED, log) are observed through a chronological list of [call]s.
    Code that can stop ([ESP_ERROR_CHECK] aborting, a queue operation
    with [portMAX_DELAY] suspending its caller) lives in a small
    state-and-outcome monad.

    The tasks of the firmware are interleaved at the grain of one handler
    invocation: a driver event, a wake-up of the button worker or a turn of
    the orchestrator loop runs to completion before the next one starts.
    Delays ([vTaskDelay]) and the preemption of one task by another inside
    a handler are not represented. *)

From Stdlib Require Import ZArith List String Bool Lia.
Import ListNotations.
Local Open Scope Z_scope.

(** ** Machine integers and bit masks *)

Definition INT_MIN : Z := -2147483648.
Definition INT_MAX : Z := 2147483647.

(** Result of [int] arithmetic, brought back into the 32-bit signed range. *)
Definition wrap_int (z : Z) : Z := (z - INT_MIN) mod 2 ^ 32 + INT_MIN.

Definition esp_err_t := Z.
Definition ESP_OK : esp_err_t := 0.

Definition EventBits_t := Z.
Definition BIT0 : Z := 1.
Definition BIT1 : Z := 2.
Definition BIT2 : Z := 4.

Definition WIFI_APP_CONNECTING_USING_SAVED_CREDS_BIT : Z := BIT0.
Definition WIFI_APP_CONNECTING_FROM_HTTP_SERVER_BIT : Z := BIT1.
Definition WIFI_APP_STA_CONNECTED_GOT_IP_BIT : Z := BIT2.

(** The C condition [bits & mask]: true when the conjunction is non-zero. *)
Definition bits_and (bits mask : Z) : bool := negb (Z.land bits mask =? 0).

(** ** Enumerations of [wifi_app.h], [http_server.h] and the driver *)

(** Message identifiers; [WIFI_APP_MSG_UNKNOWN] stands for any other value
    of the C enum, which the task's [switch] sends to [default]. *)
Inductive wifi_app_message_e : Type :=
| WIFI_APP_MSG_START_HTTP_SERVER
| WIFI_APP_MSG_CONNECTING_FROM_HTTP_SERVER
| WIFI_APP_MSG_STA_CONNECTED_GOT_IP
| WIFI_APP_MSG_USER_REQUESTED_STA_DISCONNECT
| WIFI_APP_MSG_LOAD_SAVED_CREDENTIALS
| WIFI_APP_MSG_STA_DISCONNECTED
| WIFI_APP_MSG_UNKNOWN (msgID : Z).

Inductive http_server_message_e : Type :=
| HTTP_MSG_WIFI_CONNECT_INIT
| HTTP_MSG_WIFI_CONNECT_SUCCESS
| HTTP_MSG_WIFI_CONNECT_FAIL
| HTTP_MSG_WIFI_USER_DISCONNECT.

Inductive wifi_mode_t : Type :=
| WIFI_MODE_NULL
| WIFI_MODE_STA
| WIFI_MODE_AP
| WIFI_MODE_APSTA.

Inductive wifi_event_t : Type :=
| WIFI_EVENT_AP_START
| WIFI_EVENT_AP_STOP
| WIFI_EVENT_AP_STACONNECTED
| WIFI_EVENT_AP_STADISCONNECTED
| WIFI_EVENT_STA_START
| WIFI_EVENT_STA_CONNECTED
| WIFI_EVENT_STA_DISCONNECTED (reason : Z)
| WIFI_EVENT_OTHER (event_id : Z).

Inductive ip_event_t : Type :=
| IP_EVENT_STA_GOT_IP
| IP_EVENT_OTHER (event_id : Z).

(** An event as delivered to the handler: its base and its identifier. *)
Inductive esp_event : Type :=
| WIFI_EVENT (event_id : wifi_event_t)
| IP_EVENT (event_id : ip_event_t)
| OTHER_EVENT_BASE.

(** The station part of [wifi_config_t]. *)
Record wifi_sta_config_t : Type := mk_sta_config {
  ssid : string;
  password : string
}.

(** A registered connected-callback, named by its address. *)
Definition wifi_connected_event_callback_t := Z.

(** ** Calls made to the collaborators, in the order they happen *)

Inductive call : Type :=
| Call_ESP_LOGI (text : string)
| Call_ESP_LOGI_reason (reason : Z)
| Call_esp_wifi_set_config_STA (cfg : wifi_sta_config_t)
| Call_esp_wifi_connect
| Call_esp_wifi_disconnect
| Call_esp_wifi_set_mode (mode : wifi_mode_t)
| Call_esp_wifi_start
| Call_rgb_led_wifi_app_started
| Call_rgb_led_http_server_started
| Call_rgb_led_wifi_connected
| Call_http_server_start
| Call_http_server_monitor_send_message (msgID : http_server_message_e)
| Call_app_nvs_load_sta_creds
| Call_app_nvs_save_sta_creds (cfg : wifi_sta_config_t)
| Call_app_nvs_clear_sta_creds
| Call_wifi_connected_event_cb (cb : wifi_connected_event_callback_t).

(** ** The state *)

(** The statics of [wifi_app.c], followed by what the collaborators hold:
    the credentials in NVS, the radio mode and the history of calls. *)
Record state : Type := mk_state {
  g_retry_number : Z;
  wifi_app_event_group : EventBits_t;
  wifi_config : wifi_sta_config_t;
  wifi_connected_event_cb : option wifi_connected_event_callback_t;
  wifi_app_queue : list wifi_app_message_e;
  nvs_sta_creds : option wifi_sta_config_t;
  wifi_mode : wifi_mode_t;
  trace : list call
}.

Definition set_g_retry_number (n : Z) (s : state) : state :=
  mk_state n (wifi_app_event_group s) (wifi_config s) (wifi_connected_event_cb s)
           (wifi_app_queue s) (nvs_sta_creds s) (wifi_mode s) (trace s).

Definition set_wifi_app_event_group (b : EventBits_t) (s : state) : state :=
  mk_state (g_retry_number s) b (wifi_config s) (wifi_connected_event_cb s)
           (wifi_app_queue s) (nvs_sta_creds s) (wifi_mode s) (trace s).

Definition set_wifi_config (c : wifi_sta_config_t) (s : state) : state :=
  mk_state (g_retry_number s) (wifi_app_event_group s) c (wifi_connected_event_cb s)
           (wifi_app_queue s) (nvs_sta_creds s) (wifi_mode s) (trace s).

Definition set_wifi_connected_event_cb
  (cb : option wifi_connected_event_callback_t) (s : state) : state :=
  mk_state (g_retry_number s) (wifi_app_event_group s) (wifi_config s) cb
           (wifi_app_queue s) (nvs_sta_creds s) (wifi_mode s) (trace s).

Definition set_wifi_app_queue (q : list wifi_app_message_e) (s : state) : state :=
  mk_state (g_retry_number s) (wifi_app_event_group s) (wifi_config s)
           (wifi_connected_event_cb s) q (nvs_sta_creds s) (wifi_mode s) (trace s).

Definition set_nvs_sta_creds (c : option wifi_sta_config_t) (s : state) : state :=
  mk_state (g_retry_number s) (wifi_app_event_group s) (wifi_config s)
           (wifi_connected_event_cb s) (wifi_app_queue s) c (wifi_mode s) (trace s).

Definition set_wifi_mode (m : wifi_mode_t) (s : state) : state :=
  mk_state (g_retry_number s) (wifi_app_event_group s) (wifi_config s)
           (wifi_connected_event_cb s) (wifi_app_queue s) (nvs_sta_creds s) m (trace s).

Definition record_call (c : call) (s : state) : state :=
  mk_state (g_retry_number s) (wifi_app_event_group s) (wifi_config s)
           (wifi_connected_event_cb s) (wifi_app_queue s) (nvs_sta_creds s)
           (wifi_mode s) (trace s ++ [c]).

(** ** The monad of the firmware's code *)

(** A piece of code returns with a value and a new state, aborts the
    firmware ([ESP_ERROR_CHECK] on an error code), or is suspended without
    bound in a queue operation called with [portMAX_DELAY]. *)
Inductive outcome (A : Type) : Type :=
| Done (a : A) (s : state)
| Aborted
| Blocked.

Arguments Done {A} a s.
Arguments Aborted {A}.
Arguments Blocked {A}.

Definition M (A : Type) : Type := state -> outcome A.

Definition ret {A : Type} (a : A) : M A := fun s => Done a s.

Definition bind {A B : Type} (m : M A) (k : A -> M B) : M B :=
  fun s => match m s with
           | Done a s' => k a s'
           | Aborted => Aborted
           | Blocked => Blocked
           end.

Declare Scope fw_scope.
Delimit Scope fw_scope with fw.
Notation "x <- m ;; k" := (bind m (fun x => k))
  (at level 61, m at next level, right associativity) : fw_scope.
Notation "m ;; k" := (bind m (fun _ => k))
  (at level 61, right associativity) : fw_scope.
Local Open Scope fw_scope.

Definition observe (c : call) : M unit := fun s => Done tt (record_call c s).

Definition abort {A : Type} : M A := fun _ => Aborted.

(** ** FreeRTOS primitives *)

Definition xEventGroupGetBits : M EventBits_t :=
  fun s => Done (wifi_app_event_group s) s.

Definition xEventGroupSetBits (uxBitsToSet : Z) : M unit :=
  fun s => Done tt (set_wifi_app_event_group
                      (Z.lor (wifi_app_event_group s) uxBitsToSet) s).

Definition xEventGroupClearBits (uxBitsToClear : Z) : M unit :=
  fun s => Done tt (set_wifi_app_event_group
                      (Z.ldiff (wifi_app_event_group s) uxBitsToClear) s).

(** [xQueueCreate(3, ...)] in [wifi_app_start]. *)
Definition WIFI_APP_QUEUE_LENGTH : nat := 3.

(** [xQueueSend(..., portMAX_DELAY)]: the caller is suspended while the
    queue is full. *)
Definition xQueueSend (msg : wifi_app_message_e) : M unit :=
  fun s => if (List.length (wifi_app_queue s) <? WIFI_APP_QUEUE_LENGTH)%nat
           then Done tt (set_wifi_app_queue (wifi_app_queue s ++ [msg]) s)
           else Blocked.

(** [xQueueReceive(..., portMAX_DELAY)]: the caller is suspended while the
    queue is empty. *)
Definition xQueueReceive : M wifi_app_message_e :=
  fun s => match wifi_app_queue s with
           | [] => Blocked
           | msg :: q => Done msg (set_wifi_app_queue q s)
           end.

(** ** Collaborators that only receive notifications *)

Definition ESP_LOGI (text : string) : M unit := observe (Call_ESP_LOGI text).
Definition rgb_led_wifi_connected : M unit := observe Call_rgb_led_wifi_connected.
Definition rgb_led_http_server_started : M unit :=
  observe Call_rgb_led_http_server_started.
Definition http_server_start : M unit := observe Call_http_server_start.
Definition http_server_monitor_send_message (msgID : http_server_message_e) : M unit :=
  observe (Call_http_server_monitor_send_message msgID).

(** ** The credential store [app_nvs.c] *)

(** Modelled from the spec: [app_nvs_load_sta_creds] is defined in
    [app_nvs.c], which is not part of the sources at hand. The spec gives
    the store the interface [load() -> Option<StationCredentials>]: the
    stored credentials, when present, are copied into the credential slot
    and the call answers [true]; otherwise it answers [false]. *)
Definition app_nvs_load_sta_creds : M bool :=
  fun s => match nvs_sta_creds s with
           | Some c => Done true (set_wifi_config c (record_call Call_app_nvs_load_sta_creds s))
           | None => Done false (record_call Call_app_nvs_load_sta_creds s)
           end.

(** Modelled from the spec: [app_nvs_save_sta_creds] of [app_nvs.c]; the
    spec's [save(StationCredentials)] stores the credentials of the slot. *)
Definition app_nvs_save_sta_creds : M unit :=
  fun s => Done tt (set_nvs_sta_creds (Some (wifi_config s))
                      (record_call (Call_app_nvs_save_sta_creds (wifi_config s)) s)).

(** Modelled from the spec: [app_nvs_clear_sta_creds] of [app_nvs.c]; the
    spec's [clear()] leaves the store without credentials. *)
Definition app_nvs_clear_sta_creds : M unit :=
  fun s => Done tt (set_nvs_sta_creds None (record_call Call_app_nvs_clear_sta_creds s)).

(** ** The firmware, over its two configuration parameters *)

Section WifiApp.

(** [MAX_CONNECTION_RETRIES] is a macro of [wifi_app.h]. *)
Variable MAX_CONNECTION_RETRIES : Z.

(** The status code the WiFi driver answers to a call, given the calls
    made so far. *)
Variable driver_status : call -> list call -> esp_err_t.

Definition esp_wifi_set_config_STA : M esp_err_t :=
  fun s => let c := Call_esp_wifi_set_config_STA (wifi_config s) in
           Done (driver_status c (trace s)) (record_call c s).

Definition esp_wifi_connect : M esp_err_t :=
  fun s => Done (driver_status Call_esp_wifi_connect (trace s))
                (record_call Call_esp_wifi_connect s).

Definition esp_wifi_disconnect : M esp_err_t :=
  fun s => Done (driver_status Call_esp_wifi_disconnect (trace s))
                (record_call Call_esp_wifi_disconnect s).

(** The radio changes mode when the driver accepts the request. *)
Definition esp_wifi_set_mode (mode : wifi_mode_t) : M esp_err_t :=
  fun s => let c := Call_esp_wifi_set_mode mode in
           let r := driver_status c (trace s) in
           Done r (if r =? ESP_OK then set_wifi_mode mode (record_call c s)
                   else record_call c s).

Definition ESP_ERROR_CHECK (x : M esp_err_t) : M unit :=
  r <- x ;; if r =? ESP_OK then ret tt else abort.

(** *** Public API *)

Definition wifi_app_send_message (msgID : wifi_app_message_e) : M unit :=
  xQueueSend msgID.

Definition wifi_app_set_callback (cb : option wifi_connected_event_callback_t) : M unit :=
  fun s => Done tt (set_wifi_connected_event_cb cb s).

(** The callback belongs to another module: its invocation is recorded,
    and it is taken not to call back into this API while it runs. *)
Definition wifi_app_call_callback : M unit :=
  fun s => match wifi_connected_event_cb s with
           | Some cb => Done tt (record_call (Call_wifi_connected_event_cb cb) s)
           | None => Done tt s
           end.

(** *** Reset button worker: one wake-up of [wifi_reset_button_task],
    from the semaphore given by the interrupt handler to the debounce delay *)

Definition wifi_reset_button_task : M unit :=
  ESP_LOGI "WiFi Reset Button Pressed" ;;
  wifi_app_send_message WIFI_APP_MSG_USER_REQUESTED_STA_DISCONNECT.

(** *** Hardware event bridge *)

Definition wifi_app_event_handler (event : esp_event) : M unit :=
  match event with
  | WIFI_EVENT event_id =>
      match event_id with
      | WIFI_EVENT_AP_START => ESP_LOGI "WIFI_EVENT_AP_START"
      | WIFI_EVENT_AP_STOP => ESP_LOGI "WIFI_EVENT_AP_STOP"
      | WIFI_EVENT_AP_STACONNECTED => ESP_LOGI "WIFI_EVENT_AP_STACONNECTED"
      | WIFI_EVENT_AP_STADISCONNECTED => ESP_LOGI "WIFI_EVENT_AP_STADISCONNECTED"
      | WIFI_EVENT_STA_START => ESP_LOGI "WIFI_EVENT_STA_START"
      | WIFI_EVENT_STA_CONNECTED => ESP_LOGI "WIFI_EVENT_STA_CONNECTED"
      | WIFI_EVENT_STA_DISCONNECTED reason =>
          ESP_LOGI "WIFI_EVENT_STA_DISCONNECTED" ;;
          observe (Call_ESP_LOGI_reason reason) ;;
          fun s =>
            if g_retry_number s <? MAX_CONNECTION_RETRIES
            then (_ <- esp_wifi_connect ;;
                  fun s' => Done tt (set_g_retry_number
                                       (wrap_int (g_retry_number s' + 1)) s')) s
            else wifi_app_send_message WIFI_APP_MSG_STA_DISCONNECTED s
      | WIFI_EVENT_OTHER _ => ret tt
      end
  | IP_EVENT event_id =>
      match event_id with
      | IP_EVENT_STA_GOT_IP =>
          ESP_LOGI "IP_EVENT_STA_GOT_IP" ;;
          wifi_app_send_message WIFI_APP_MSG_STA_CONNECTED_GOT_IP
      | IP_EVENT_OTHER _ => ret tt
      end
  | OTHER_EVENT_BASE => ret tt
  end.

(** *** Connection orchestrator *)

Definition wifi_app_connect_sta : M unit :=
  ESP_ERROR_CHECK esp_wifi_set_config_STA ;;
  ESP_ERROR_CHECK esp_wifi_connect.

Definition handle_wifi_connected : M unit :=
  eventBits <- xEventGroupGetBits ;;
  xEventGroupSetBits WIFI_APP_STA_CONNECTED_GOT_IP_BIT ;;
  rgb_led_wifi_connected ;;
  http_server_monitor_send_message HTTP_MSG_WIFI_CONNECT_SUCCESS ;;
  (if bits_and eventBits WIFI_APP_CONNECTING_USING_SAVED_CREDS_BIT
   then xEventGroupClearBits WIFI_APP_CONNECTING_USING_SAVED_CREDS_BIT
   else app_nvs_save_sta_creds) ;;
  (if bits_and eventBits WIFI_APP_CONNECTING_FROM_HTTP_SERVER_BIT
   then xEventGroupClearBits WIFI_APP_CONNECTING_FROM_HTTP_SERVER_BIT
   else ret tt) ;;
  fun s => match wifi_connected_event_cb s with
           | Some _ => wifi_app_call_callback s
           | None => Done tt s
           end.

Definition handle_wifi_disconnected : M unit :=
  eventBits <- xEventGroupGetBits ;;
  (if bits_and eventBits WIFI_APP_CONNECTING_USING_SAVED_CREDS_BIT
   then ESP_LOGI "Failed to connect using saved credentials" ;;
        xEventGroupClearBits WIFI_APP_CONNECTING_USING_SAVED_CREDS_BIT ;;
        app_nvs_clear_sta_creds
   else if bits_and eventBits WIFI_APP_CONNECTING_FROM_HTTP_SERVER_BIT
   then ESP_LOGI "Failed to connect from HTTP server" ;;
        xEventGroupClearBits WIFI_APP_CONNECTING_FROM_HTTP_SERVER_BIT ;;
        http_server_monitor_send_message HTTP_MSG_WIFI_CONNECT_FAIL
   else ESP_LOGI "Unexpected disconnection") ;;
  (if bits_and eventBits WIFI_APP_STA_CONNECTED_GOT_IP_BIT
   then xEventGroupClearBits WIFI_APP_STA_CONNECTED_GOT_IP_BIT
   else ret tt).

(** The body of the [switch (msg.msgID)] of [wifi_app_task]. *)
Definition wifi_app_task_switch (msgID : wifi_app_message_e) : M unit :=
  match msgID with
  | WIFI_APP_MSG_LOAD_SAVED_CREDENTIALS =>
      ESP_LOGI "WIFI_APP_MSG_LOAD_SAVED_CREDENTIALS" ;;
      loaded <- app_nvs_load_sta_creds ;;
      (if loaded : bool
       then ESP_LOGI "Loaded station configuration" ;;
            wifi_app_connect_sta ;;
            xEventGroupSetBits WIFI_APP_CONNECTING_USING_SAVED_CREDS_BIT
       else ESP_LOGI "Unable to load station configuration") ;;
      wifi_app_send_message WIFI_APP_MSG_START_HTTP_SERVER
  | WIFI_APP_MSG_START_HTTP_SERVER =>
      ESP_LOGI "WIFI_APP_MSG_START_HTTP_SERVER" ;;
      http_server_start ;;
      rgb_led_http_server_started
  | WIFI_APP_MSG_CONNECTING_FROM_HTTP_SERVER =>
      ESP_LOGI "WIFI_APP_MSG_CONNECTING_FROM_HTTP_SERVER" ;;
      xEventGroupSetBits WIFI_APP_CONNECTING_FROM_HTTP_SERVER_BIT ;;
      wifi_app_connect_sta ;;
      (fun s => Done tt (set_g_retry_number 0 s)) ;;
      http_server_monitor_send_message HTTP_MSG_WIFI_CONNECT_INIT
  | WIFI_APP_MSG_STA_CONNECTED_GOT_IP =>
      ESP_LOGI "WIFI_APP_MSG_STA_CONNECTED_GOT_IP" ;;
      handle_wifi_connected
  | WIFI_APP_MSG_USER_REQUESTED_STA_DISCONNECT =>
      ESP_LOGI "WIFI_APP_MSG_USER_REQUESTED_STA_DISCONNECT" ;;
      bits <- xEventGroupGetBits ;;
      if bits_and bits WIFI_APP_STA_CONNECTED_GOT_IP_BIT
      then (fun s => Done tt (set_g_retry_number (wrap_int MAX_CONNECTION_RETRIES) s)) ;;
           ESP_ERROR_CHECK esp_wifi_disconnect ;;
           app_nvs_clear_sta_creds ;;
           ESP_ERROR_CHECK (esp_wifi_set_mode WIFI_MODE_AP) ;;
           rgb_led_http_server_started ;;
           http_server_monitor_send_message HTTP_MSG_WIFI_USER_DISCONNECT ;;
           xEventGroupClearBits WIFI_APP_STA_CONNECTED_GOT_IP_BIT
      else ret tt
  | WIFI_APP_MSG_STA_DISCONNECTED =>
      ESP_LOGI "WIFI_APP_MSG_STA_DISCONNECTED" ;;
      handle_wifi_disconnected
  | WIFI_APP_MSG_UNKNOWN _ => ret tt
  end.

(** One turn of the [for(;;)] of [wifi_app_task]; it answers the message
    it has taken from the queue. *)
Definition wifi_app_task : M wifi_app_message_e :=
  msg <- xQueueReceive ;;
  wifi_app_task_switch msg ;;
  ret msg.


(** *** The firmware as a whole *)

(** What can happen next: the event loop delivers a driver event, the
    reset-button worker wakes up, some task calls the public
    [wifi_app_send_message] or [wifi_app_set_callback], the configuration
    service writes the credential slot through the pointer handed out by
    [wifi_app_get_wifi_config], or the orchestrator task takes one turn. *)
Inductive input : Type :=
| Driver_event (event : esp_event)
| Reset_button_pressed
| Send_message (msgID : wifi_app_message_e)
| Set_callback (cb : option wifi_connected_event_callback_t)
| Write_wifi_config (cfg : wifi_sta_config_t)
| Task_turn.

(** One input, run to completion; it answers the messages the orchestrator
    has processed (none, or the one of a [Task_turn]). *)
Definition step (i : input) : M (list wifi_app_message_e) :=
  match i with
  | Driver_event event => wifi_app_event_handler event ;; ret []
  | Reset_button_pressed => wifi_reset_button_task ;; ret []
  | Send_message msgID => wifi_app_send_message msgID ;; ret []
  | Set_callback cb => wifi_app_set_callback cb ;; ret []
  | Write_wifi_config cfg => (fun s => Done tt (set_wifi_config cfg s)) ;; ret []
  | Task_turn => msg <- wifi_app_task ;; ret [msg]
  end.

(** A schedule of inputs; it answers the messages processed, oldest first. *)
Fixpoint run (inputs : list input) : M (list wifi_app_message_e) :=
  match inputs with
  | [] => ret []
  | i :: inputs' =>
      processed <- step i ;;
      processed' <- run inputs' ;;
      ret (processed ++ processed')
  end.

(** The state in which [wifi_app_task] enters its loop, after
    [wifi_app_start] and a successful bring-up of the driver: flags clear,
    no retry counted, the slot zeroed, [WIFI_APP_MSG_LOAD_SAVED_CREDENTIALS]
    queued, the radio in AP+STA mode. [stored] is what NVS holds at boot. *)
Definition wifi_app_start (stored : option wifi_sta_config_t) : state :=
  {| g_retry_number := 0;
     wifi_app_event_group := 0;
     wifi_config := mk_sta_config "" "";
     wifi_connected_event_cb := None;
     wifi_app_queue := [WIFI_APP_MSG_LOAD_SAVED_CREDENTIALS];
     nvs_sta_creds := stored;
     wifi_mode := WIFI_MODE_APSTA;
     trace := [Call_ESP_LOGI "Starting WiFi Application";
               Call_rgb_led_wifi_app_started;
               Call_esp_wifi_set_mode WIFI_MODE_APSTA;
               Call_esp_wifi_start] |}.

(** ** Vocabulary of the properties *)

(** The three connection flags of a state. *)
Definition UsingSavedCredentials (s : state) : bool :=
  bits_and (wifi_app_event_group s) WIFI_APP_CONNECTING_USING_SAVED_CREDS_BIT.
Definition InitiatedFromConfigService (s : state) : bool :=
  bits_and (wifi_app_event_group s) WIFI_APP_CONNECTING_FROM_HTTP_SERVER_BIT.
Definition ConnectedWithIp (s : state) : bool :=
  bits_and (wifi_app_event_group s) WIFI_APP_STA_CONNECTED_GOT_IP_BIT.

(** The calls a piece of code has added to the history. *)
Definition calls_since (s s' : state) (cs : list call) : Prop :=
  trace s' = trace s ++ cs.

(** Every driver call is answered [ESP_OK]. *)
Definition driver_ok : Prop := forall c h, driver_status c h = ESP_OK.

(** The retry counter holds an [int] and the queue respects its capacity. *)
Definition well_formed (s : state) : Prop :=
  INT_MIN <= g_retry_number s <= INT_MAX /\
  (List.length (wifi_app_queue s) <= WIFI_APP_QUEUE_LENGTH)%nat.

Definition queue_has_room (s : state) : Prop :=
  (List.length (wifi_app_queue s) < WIFI_APP_QUEUE_LENGTH)%nat.

(** The two ways the firmware starts a connection attempt: the task
    processes [WIFI_APP_MSG_CONNECTING_FROM_HTTP_SERVER], or it processes the
    [WIFI_APP_MSG_LOAD_SAVED_CREDENTIALS] of startup with credentials in NVS. *)
Definition connection_attempt (s0 s : state) : Prop :=
  wifi_app_task_switch WIFI_APP_MSG_CONNECTING_FROM_HTTP_SERVER s0 = Done tt s \/
  (exists c, s0 = wifi_app_start (Some c) /\
             wifi_app_task s0 = Done WIFI_APP_MSG_LOAD_SAVED_CREDENTIALS s).


(** The messages whose processing writes ConnectedWithIp. *)
Definition concerns_connection (msgID : wifi_app_message_e) : bool :=
  match msgID with
  | WIFI_APP_MSG_STA_CONNECTED_GOT_IP
  | WIFI_APP_MSG_STA_DISCONNECTED
  | WIFI_APP_MSG_USER_REQUESTED_STA_DISCONNECT => true
  | _ => false
  end.

(** The most recent such message among the processed ones, oldest first. *)
Fixpoint last_connection_message (processed : list wifi_app_message_e)
  : option wifi_app_message_e :=
  match processed with
  | [] => None
  | msgID :: processed' =>
      match last_connection_message processed' with
      | Some m => Some m
      | None => if concerns_connection msgID then Some msgID else None
      end
  end.

(** An input keeps the two origins apart when it does not make the task
    process [WIFI_APP_MSG_CONNECTING_FROM_HTTP_SERVER] with
    UsingSavedCredentials set, nor [WIFI_APP_MSG_LOAD_SAVED_CREDENTIALS] with
    InitiatedFromConfigService set. *)
Definition origin_guard (i : input) (s : state) : bool :=
  match i, wifi_app_queue s with
  | Task_turn, WIFI_APP_MSG_CONNECTING_FROM_HTTP_SERVER :: _ =>
      negb (UsingSavedCredentials s)
  | Task_turn, WIFI_APP_MSG_LOAD_SAVED_CREDENTIALS :: _ =>
      negb (InitiatedFromConfigService s)
  | _, _ => true
  end.

(** A schedule all of whose inputs keep the origins apart, each checked in
    the state it meets. *)
Fixpoint origins_kept_apart (inputs : list input) (s : state) : bool :=
  match inputs with
  | [] => true
  | i :: inputs' =>
      origin_guard i s &&
      match step i s with
      | Done _ s' => origins_kept_apart inputs' s'
      | _ => true
      end
  end.

(** ** Data of the scenarios *)

Definition home : wifi_sta_config_t := mk_sta_config "Home" "secret".
Definition office : wifi_sta_config_t := mk_sta_config "Office" "pw123".

(** A driver that accepts every request. *)
Definition driver_accepts (c : call) (h : list call) : esp_err_t := ESP_OK.

(** A station-disconnected event of the driver, with its reason code. *)
Definition sta_disconnected (reason : Z) : input :=
  Driver_event (WIFI_EVENT (WIFI_EVENT_STA_DISCONNECTED reason)).

Definition got_ip : input := Driver_event (IP_EVENT IP_EVENT_STA_GOT_IP).

(** The direct reconnect commands among some calls. *)
Definition reconnects (cs : list call) : nat :=
  List.length (filter (fun c => match c with Call_esp_wifi_connect => true | _ => false end) cs).

(** The calls that write credentials to NVS among some calls. *)
Definition persist_calls (cs : list call) : list call :=
  filter (fun c => match c with Call_app_nvs_save_sta_creds _ => true | _ => false end) cs.

(** A schedule in which the orchestrator task takes no turn. *)
Definition no_task_turn (inputs : list input) : bool :=
  forallb (fun i => match i with Task_turn => false | _ => true end) inputs.

(** The callbacks invoked among some calls, oldest first. *)
Definition callback_calls (cs : list call) : list wifi_connected_event_callback_t :=
  flat_map (fun c => match c with Call_wifi_connected_event_cb cb => [cb] | _ => [] end) cs.

(** The calls that erase the credentials of NVS among some calls. *)
Definition clear_calls (cs : list call) : list call :=
  filter (fun c => match c with Call_app_nvs_clear_sta_creds => true | _ => false end) cs.

(** [ESP_FAIL] of [esp_err.h], and a driver that refuses to connect. *)
Definition ESP_FAIL : esp_err_t := -1.

Definition driver_refuses_connect (c : call) (h : list call) : esp_err_t :=
  match c with
  | Call_esp_wifi_connect => ESP_FAIL
  | _ => ESP_OK
  end.

(** A day in the life of the device: the saved credentials of "Home" fail
    and are escalated, the configuration service submits "Office", the
    connection succeeds, the reset button is pressed. *)
Definition eventful_day : list input :=
  [Task_turn; Task_turn] ++
  map sta_disconnected [201; 201; 201; 201; 201; 201] ++
  [Task_turn; Write_wifi_config office;
   Send_message WIFI_APP_MSG_CONNECTING_FROM_HTTP_SERVER; Task_turn;
   got_ip; Task_turn; Reset_button_pressed; Task_turn].

(** Every message but the load of startup. *)
Definition not_load (msgID : wifi_app_message_e) : bool :=
  match msgID with
  | WIFI_APP_MSG_LOAD_SAVED_CREDENTIALS => false
  | _ => true
  end.

(** The inputs that can come before the first connect command: anything
    but a turn of the task and a station-disconnected event. *)
Definition precedes_first_connect (i : input) : bool :=
  match i with
  | Task_turn => false
  | Driver_event (WIFI_EVENT (WIFI_EVENT_STA_DISCONNECTED _)) => false
  | _ => true
  end.

Definition before_first_connect (inputs : list input) : bool :=
  forallb precedes_first_connect inputs.

(** ** Bit masks of the event group *)

Lemma land_pow2 (a k : Z) :
  0 <= k -> Z.land a (2 ^ k) = if Z.testbit a k then 2 ^ k else 0.
Proof.
  intros Hk. apply Z.bits_inj'. intros n Hn.
  rewrite Z.land_spec, Z.pow2_bits_eqb by assumption.
  destruct (Z.eqb_spec k n) as [->|Hne].
  - destruct (Z.testbit a n) eqn:E.
    + rewrite Z.pow2_bits_true by assumption. reflexivity.
    + rewrite Z.bits_0. reflexivity.
  - rewrite andb_false_r.
    destruct (Z.testbit a k).
    + rewrite Z.pow2_bits_false by congruence. reflexivity.
    + rewrite Z.bits_0. reflexivity.
Qed.

Lemma bits_and_pow2 (a k : Z) : 0 <= k -> bits_and a (2 ^ k) = Z.testbit a k.
Proof.
  intros Hk. unfold bits_and. rewrite land_pow2 by assumption.
  destruct (Z.testbit a k); [|reflexivity].
  assert (0 < 2 ^ k) by (apply Z.pow_pos_nonneg; lia).
  destruct (Z.eqb_spec (2 ^ k) 0); [lia|reflexivity].
Qed.

Lemma testbit_set_bit (a j k : Z) :
  0 <= j -> 0 <= k -> Z.testbit (Z.lor a (2 ^ k)) j = Z.testbit a j || (k =? j).
Proof.
  intros Hj Hk. rewrite Z.lor_spec, Z.pow2_bits_eqb by assumption. reflexivity.
Qed.

Lemma testbit_clear_bit (a j k : Z) :
  0 <= j -> 0 <= k ->
  Z.testbit (Z.ldiff a (2 ^ k)) j = Z.testbit a j && negb (k =? j).
Proof.
  intros Hj Hk. rewrite Z.ldiff_spec, Z.pow2_bits_eqb by assumption. reflexivity.
Qed.

Lemma wrap_int_in_range (z : Z) : INT_MIN <= z <= INT_MAX -> wrap_int z = z.
Proof.
  unfold wrap_int, INT_MIN, INT_MAX. intros H.
  rewrite Z.mod_small by lia. lia.
Qed.

(** Reads the fields of a state built by the setters. *)
Ltac fields :=
  cbn [g_retry_number wifi_app_event_group wifi_config wifi_connected_event_cb
       wifi_app_queue nvs_sta_creds wifi_mode trace
       record_call set_g_retry_number set_wifi_app_event_group set_wifi_config
       set_wifi_connected_event_cb set_wifi_app_queue set_nvs_sta_creds
       set_wifi_mode] in *.

(** Brings every test of a flag to [Z.testbit] of the original bits. *)
Ltac flags :=
  unfold UsingSavedCredentials, InitiatedFromConfigService, ConnectedWithIp in *;
  fields;
  change WIFI_APP_CONNECTING_USING_SAVED_CREDS_BIT with (2 ^ 0) in *;
  change WIFI_APP_CONNECTING_FROM_HTTP_SERVER_BIT with (2 ^ 1) in *;
  change WIFI_APP_STA_CONNECTED_GOT_IP_BIT with (2 ^ 2) in *;
  repeat (rewrite bits_and_pow2 in * by lia);
  repeat (progress (rewrite ?testbit_set_bit, ?testbit_clear_bit in * by lia));
  change (0 =? 0) with true in *; change (0 =? 1) with false in *;
  change (0 =? 2) with false in *; change (1 =? 0) with false in *;
  change (1 =? 1) with true in *; change (1 =? 2) with false in *;
  change (2 =? 0) with false in *; change (2 =? 1) with false in *;
  change (2 =? 2) with true in *;
  cbn [negb] in *;
  rewrite ?orb_false_r, ?orb_true_r, ?andb_true_r, ?andb_false_r in *.

(** Runs straight-line firmware code on a symbolic state. *)
Ltac fw_unfold :=
  cbv beta iota delta
    [wifi_app_task wifi_app_task_switch handle_wifi_connected
     handle_wifi_disconnected wifi_app_connect_sta wifi_app_event_handler
     wifi_reset_button_task wifi_app_send_message wifi_app_set_callback
     wifi_app_call_callback ESP_ERROR_CHECK esp_wifi_set_config_STA
     esp_wifi_connect esp_wifi_disconnect esp_wifi_set_mode
     app_nvs_load_sta_creds app_nvs_save_sta_creds app_nvs_clear_sta_creds
     ESP_LOGI rgb_led_wifi_connected rgb_led_http_server_started
     http_server_start http_server_monitor_send_message
     xEventGroupGetBits xEventGroupSetBits xEventGroupClearBits
     xQueueSend xQueueReceive observe abort bind ret];
  fields.

(** Runs code whose driver calls are all answered [ESP_OK]. *)
Ltac fw_driver Hok :=
  repeat (fw_unfold; try rewrite !Hok;
          change (ESP_OK =? ESP_OK) with true; cbv beta iota).

(** Splits on the status code of the next checked driver call. *)
Ltac case_status :=
  match goal with
  | |- context [?r =? ESP_OK] => destruct (r =? ESP_OK) eqn:?; fw_unfold
  end.

(** ** User-requested disconnect *)

(** C5. Processing [WIFI_APP_MSG_USER_REQUESTED_STA_DISCONNECT] with
    ConnectedWithIp set forces the retry counter to
    [MAX_CONNECTION_RETRIES] (a cap that fits the [int] counter), issues the disconnect command, clears the
    stored credentials, switches the radio to access-point-only mode,
    signals the LED 'HTTP server started', notifies the monitor of the user
    disconnect and clears ConnectedWithIp, in this order; with
    ConnectedWithIp clear it only writes its log line, so flags,
    credentials, retry counter and radio mode are what they were. *)
Theorem user_requested_sta_disconnect (s : state) :
  (driver_ok -> INT_MIN <= MAX_CONNECTION_RETRIES <= INT_MAX ->
   ConnectedWithIp s = true ->
   exists s',
     wifi_app_task_switch WIFI_APP_MSG_USER_REQUESTED_STA_DISCONNECT s = Done tt s' /\
     g_retry_number s' = MAX_CONNECTION_RETRIES /\
     calls_since s s'
       [Call_ESP_LOGI "WIFI_APP_MSG_USER_REQUESTED_STA_DISCONNECT";
        Call_esp_wifi_disconnect;
        Call_app_nvs_clear_sta_creds;
        Call_esp_wifi_set_mode WIFI_MODE_AP;
        Call_rgb_led_http_server_started;
        Call_http_server_monitor_send_message HTTP_MSG_WIFI_USER_DISCONNECT] /\
     nvs_sta_creds s' = None /\
     wifi_mode s' = WIFI_MODE_AP /\
     ConnectedWithIp s' = false /\
     UsingSavedCredentials s' = UsingSavedCredentials s /\
     InitiatedFromConfigService s' = InitiatedFromConfigService s /\
     wifi_config s' = wifi_config s /\
     wifi_app_queue s' = wifi_app_queue s) /\
  (ConnectedWithIp s = false ->
   wifi_app_task_switch WIFI_APP_MSG_USER_REQUESTED_STA_DISCONNECT s =
   Done tt (record_call (Call_ESP_LOGI "WIFI_APP_MSG_USER_REQUESTED_STA_DISCONNECT") s)).
Proof.
  split.
  - intros Hok Hmax Hc. unfold ConnectedWithIp in Hc.
    fw_unfold. rewrite Hc. fw_driver Hok.
    rewrite (wrap_int_in_range _ Hmax).
    eexists. split; [reflexivity|].
    fw_unfold. unfold calls_since. fw_unfold. rewrite <- !app_assoc. cbn [app].
    repeat split; try reflexivity; flags; try reflexivity.
  - intros Hc. unfold ConnectedWithIp in Hc.
    fw_unfold. rewrite Hc. reflexivity.
Qed.

(** ** Escalated disconnect *)

(** C6. Processing [WIFI_APP_MSG_STA_DISCONNECTED] always returns and takes
    exactly one of three branches, chosen by the flags read at handler
    entry: with UsingSavedCredentials set, that flag is cleared and the
    stored credentials are cleared; otherwise, with
    InitiatedFromConfigService set, that flag is cleared and the monitor is
    told 'connect failed'; otherwise the loss is only logged. The calls
    listed for a branch are all the calls made. *)
Theorem sta_disconnected_one_of_three_branches (s : state) :
  exists s',
    wifi_app_task_switch WIFI_APP_MSG_STA_DISCONNECTED s = Done tt s' /\
    ConnectedWithIp s' = false /\
    g_retry_number s' = g_retry_number s /\
    wifi_config s' = wifi_config s /\
    wifi_app_queue s' = wifi_app_queue s /\
    wifi_mode s' = wifi_mode s /\
    if UsingSavedCredentials s then
      UsingSavedCredentials s' = false /\
      InitiatedFromConfigService s' = InitiatedFromConfigService s /\
      nvs_sta_creds s' = None /\
      calls_since s s'
        [Call_ESP_LOGI "WIFI_APP_MSG_STA_DISCONNECTED";
         Call_ESP_LOGI "Failed to connect using saved credentials";
         Call_app_nvs_clear_sta_creds]
    else if InitiatedFromConfigService s then
      UsingSavedCredentials s' = false /\
      InitiatedFromConfigService s' = false /\
      nvs_sta_creds s' = nvs_sta_creds s /\
      calls_since s s'
        [Call_ESP_LOGI "WIFI_APP_MSG_STA_DISCONNECTED";
         Call_ESP_LOGI "Failed to connect from HTTP server";
         Call_http_server_monitor_send_message HTTP_MSG_WIFI_CONNECT_FAIL]
    else
      UsingSavedCredentials s' = false /\
      InitiatedFromConfigService s' = false /\
      nvs_sta_creds s' = nvs_sta_creds s /\
      calls_since s s'
        [Call_ESP_LOGI "WIFI_APP_MSG_STA_DISCONNECTED";
         Call_ESP_LOGI "Unexpected disconnection"].
Proof.
  unfold UsingSavedCredentials, InitiatedFromConfigService, calls_since.
  fw_unfold.
  destruct (bits_and (wifi_app_event_group s) WIFI_APP_CONNECTING_USING_SAVED_CREDS_BIT) eqn:Hsaved;
    [|destruct (bits_and (wifi_app_event_group s) WIFI_APP_CONNECTING_FROM_HTTP_SERVER_BIT) eqn:Hhttp];
    destruct (bits_and (wifi_app_event_group s) WIFI_APP_STA_CONNECTED_GOT_IP_BIT) eqn:Hip;
    fw_unfold; eexists; (split; [reflexivity|]); fields;
    rewrite <- ?app_assoc; cbn [app];
    repeat split; try reflexivity; flags; try reflexivity; try assumption.
Qed.

(** C9. A [WIFI_APP_MSG_STA_DISCONNECTED] resolved in the
    InitiatedFromConfigService branch leaves the credentials stored in NVS
    and the in-memory credential slot as they were; of the branches of the
    disconnect handler only the UsingSavedCredentials one calls
    [app_nvs_clear_sta_creds]. *)
Theorem config_service_failure_keeps_credentials (s : state) :
  (UsingSavedCredentials s = false ->
   InitiatedFromConfigService s = true ->
   exists s',
     wifi_app_task_switch WIFI_APP_MSG_STA_DISCONNECTED s = Done tt s' /\
     nvs_sta_creds s' = nvs_sta_creds s /\
     wifi_config s' = wifi_config s) /\
  (exists s' cs,
     wifi_app_task_switch WIFI_APP_MSG_STA_DISCONNECTED s = Done tt s' /\
     calls_since s s' cs /\
     (In Call_app_nvs_clear_sta_creds cs <-> UsingSavedCredentials s = true)).
Proof.
  unfold UsingSavedCredentials, InitiatedFromConfigService, calls_since.
  split.
  - intros Hsaved Hhttp. fw_unfold. rewrite Hsaved, Hhttp.
    destruct (bits_and (wifi_app_event_group s) WIFI_APP_STA_CONNECTED_GOT_IP_BIT);
      fw_unfold; eexists; repeat split; reflexivity.
  - fw_unfold.
    destruct (bits_and (wifi_app_event_group s) WIFI_APP_CONNECTING_USING_SAVED_CREDS_BIT) eqn:Hsaved;
      [|destruct (bits_and (wifi_app_event_group s) WIFI_APP_CONNECTING_FROM_HTTP_SERVER_BIT) eqn:Hhttp];
      destruct (bits_and (wifi_app_event_group s) WIFI_APP_STA_CONNECTED_GOT_IP_BIT) eqn:Hip;
      fw_unfold; do 2 eexists;
      (split; [reflexivity|]); fields; rewrite <- ?app_assoc; cbn [app];
      (split; [reflexivity|]); cbn [In]; split;
      solve [ intros _; reflexivity
            | intros; right; right; left; reflexivity
            | intros H; repeat (destruct H as [H|H]; try discriminate H); contradiction
            | intros H; discriminate H ].
Qed.

(** ** Startup load *)

Lemma queue_room_after_receive (s : state) (msg : wifi_app_message_e)
  (q : list wifi_app_message_e) :
  well_formed s -> wifi_app_queue s = msg :: q ->
  (List.length q <? WIFI_APP_QUEUE_LENGTH)%nat = true.
Proof.
  intros [_ Hlen] Hq. rewrite Hq in Hlen. cbn [List.length] in Hlen.
  apply Nat.ltb_lt. lia.
Qed.

(** C8. A turn of the task that receives
    [WIFI_APP_MSG_LOAD_SAVED_CREDENTIALS] asks the store to load; with
    credentials present it issues the connect command with them
    ([esp_wifi_set_config] on the loaded credentials, then
    [esp_wifi_connect]) and sets UsingSavedCredentials; with none it issues
    no connect command and leaves the flags as they were; either way
    [WIFI_APP_MSG_START_HTTP_SERVER] is put at the back of the queue. *)
Theorem load_saved_credentials (s : state) (q : list wifi_app_message_e) :
  driver_ok -> well_formed s ->
  wifi_app_queue s = WIFI_APP_MSG_LOAD_SAVED_CREDENTIALS :: q ->
  exists s',
    wifi_app_task s = Done WIFI_APP_MSG_LOAD_SAVED_CREDENTIALS s' /\
    wifi_app_queue s' = q ++ [WIFI_APP_MSG_START_HTTP_SERVER] /\
    nvs_sta_creds s' = nvs_sta_creds s /\
    match nvs_sta_creds s with
    | Some c =>
        calls_since s s'
          [Call_ESP_LOGI "WIFI_APP_MSG_LOAD_SAVED_CREDENTIALS";
           Call_app_nvs_load_sta_creds;
           Call_ESP_LOGI "Loaded station configuration";
           Call_esp_wifi_set_config_STA c;
           Call_esp_wifi_connect] /\
        wifi_config s' = c /\
        UsingSavedCredentials s' = true /\
        InitiatedFromConfigService s' = InitiatedFromConfigService s /\
        ConnectedWithIp s' = ConnectedWithIp s
    | None =>
        calls_since s s'
          [Call_ESP_LOGI "WIFI_APP_MSG_LOAD_SAVED_CREDENTIALS";
           Call_app_nvs_load_sta_creds;
           Call_ESP_LOGI "Unable to load station configuration"] /\
        wifi_app_event_group s' = wifi_app_event_group s
    end.
Proof.
  intros Hok Hwf Hq.
  pose proof (queue_room_after_receive s _ q Hwf Hq) as Hroom.
  unfold calls_since. fw_unfold. rewrite Hq. fw_unfold.
  destruct (nvs_sta_creds s) as [c|] eqn:Hnvs.
  - fw_driver Hok. rewrite Hroom.
    eexists. split; [reflexivity|]. fields. rewrite <- ?app_assoc. cbn [app].
    repeat split; try assumption; try reflexivity; flags; reflexivity.
  - fw_unfold. rewrite Hroom.
    eexists. split; [reflexivity|]. fields. rewrite <- ?app_assoc. cbn [app].
    repeat split; try assumption; reflexivity.
Qed.

(** ** Fast-path reconnects of the event bridge *)

Lemma sta_disconnected_below_cap (s : state) (reason : Z) :
  INT_MIN <= g_retry_number s -> MAX_CONNECTION_RETRIES <= INT_MAX ->
  g_retry_number s < MAX_CONNECTION_RETRIES ->
  wifi_app_event_handler (WIFI_EVENT (WIFI_EVENT_STA_DISCONNECTED reason)) s =
  Done tt (set_g_retry_number (g_retry_number s + 1)
             (record_call Call_esp_wifi_connect
                (record_call (Call_ESP_LOGI_reason reason)
                   (record_call (Call_ESP_LOGI "WIFI_EVENT_STA_DISCONNECTED") s)))).
Proof.
  intros Hlo Hhi Hlt. fw_unfold.
  apply Z.ltb_lt in Hlt. rewrite Hlt. apply Z.ltb_lt in Hlt.
  rewrite wrap_int_in_range by lia. reflexivity.
Qed.

Lemma sta_disconnected_at_cap (s : state) (reason : Z) :
  queue_has_room s -> MAX_CONNECTION_RETRIES <= g_retry_number s ->
  wifi_app_event_handler (WIFI_EVENT (WIFI_EVENT_STA_DISCONNECTED reason)) s =
  Done tt (set_wifi_app_queue (wifi_app_queue s ++ [WIFI_APP_MSG_STA_DISCONNECTED])
             (record_call (Call_ESP_LOGI_reason reason)
                (record_call (Call_ESP_LOGI "WIFI_EVENT_STA_DISCONNECTED") s))).
Proof.
  intros Hroom Hge. fw_unfold.
  apply Z.ltb_ge in Hge. rewrite Hge.
  apply Nat.ltb_lt in Hroom. rewrite Hroom. reflexivity.
Qed.

Lemma reconnects_app (cs cs' : list call) :
  reconnects (cs ++ cs') = (reconnects cs + reconnects cs')%nat.
Proof. unfold reconnects. rewrite filter_app, length_app. reflexivity. Qed.

(** Disconnect events that fit under the cap are all answered by a direct
    reconnect; nothing reaches the queue. *)
Lemma fast_path_under_cap (reasons : list Z) :
  forall s : state,
    INT_MIN <= g_retry_number s -> MAX_CONNECTION_RETRIES <= INT_MAX ->
    g_retry_number s + Z.of_nat (List.length reasons) <= MAX_CONNECTION_RETRIES ->
    exists s' cs,
      run (map sta_disconnected reasons) s = Done [] s' /\
      calls_since s s' cs /\
      reconnects cs = List.length reasons /\
      g_retry_number s' = g_retry_number s + Z.of_nat (List.length reasons) /\
      wifi_app_queue s' = wifi_app_queue s.
Proof.
  unfold calls_since.
  induction reasons as [|r reasons IH]; intros s Hlo Hhi Hfit.
  - exists s, []. cbn. rewrite app_nil_r. repeat split; try reflexivity; lia.
  - cbn [List.length map] in *.
    pose proof (sta_disconnected_below_cap s r Hlo Hhi ltac:(lia)) as Hstep.
    set (s1 := set_g_retry_number _ _) in Hstep.
    destruct (IH s1) as (s' & cs & Hrun & Hcalls & Hcount & Hretry & Hqueue);
      [subst s1; fields; lia | assumption | subst s1; fields; lia |].
    exists s', ([Call_ESP_LOGI "WIFI_EVENT_STA_DISCONNECTED";
                 Call_ESP_LOGI_reason r; Call_esp_wifi_connect] ++ cs).
    split.
    + cbn [run]. unfold bind at 1. unfold sta_disconnected at 1, step, bind at 1.
      rewrite Hstep. unfold ret at 1. unfold bind. rewrite Hrun. reflexivity.
    + rewrite Hcalls, Hretry, Hqueue, reconnects_app, Hcount. subst s1. fields.
      rewrite <- !app_assoc. cbn [app]. repeat split; try reflexivity. lia.
Qed.

(** From a counter within the cap, exactly as many direct reconnects remain
    as the cap exceeds the counter; the next disconnect is escalated. *)
Lemma fast_path_budget (s : state) (reasons : list Z) (reason : Z) :
  INT_MIN <= g_retry_number s <= MAX_CONNECTION_RETRIES ->
  MAX_CONNECTION_RETRIES <= INT_MAX ->
  List.length reasons = Z.to_nat (MAX_CONNECTION_RETRIES - g_retry_number s) ->
  queue_has_room s ->
  exists s1 s2 cs,
    run (map sta_disconnected reasons) s = Done [] s1 /\
    calls_since s s1 cs /\
    reconnects cs = Z.to_nat (MAX_CONNECTION_RETRIES - g_retry_number s) /\
    wifi_app_queue s1 = wifi_app_queue s /\
    g_retry_number s1 = MAX_CONNECTION_RETRIES /\
    wifi_app_event_handler (WIFI_EVENT (WIFI_EVENT_STA_DISCONNECTED reason)) s1 =
      Done tt s2 /\
    calls_since s1 s2 [Call_ESP_LOGI "WIFI_EVENT_STA_DISCONNECTED";
                       Call_ESP_LOGI_reason reason] /\
    wifi_app_queue s2 = wifi_app_queue s ++ [WIFI_APP_MSG_STA_DISCONNECTED] /\
    g_retry_number s2 = MAX_CONNECTION_RETRIES.
Proof.
  intros [Hlo Hle] Hhi Hlen Hroom.
  destruct (fast_path_under_cap reasons s Hlo Hhi ltac:(lia))
    as (s1 & cs & Hrun & Hcalls & Hcount & Hretry & Hqueue).
  assert (Hs1 : g_retry_number s1 = MAX_CONNECTION_RETRIES) by lia.
  assert (Hroom1 : queue_has_room s1) by (unfold queue_has_room; rewrite Hqueue; exact Hroom).
  pose proof (sta_disconnected_at_cap s1 reason Hroom1 ltac:(lia)) as Hstep.
  exists s1; eexists; exists cs.
  split; [exact Hrun|]. split; [exact Hcalls|]. split; [congruence|].
  split; [exact Hqueue|]. split; [exact Hs1|]. split; [exact Hstep|].
  unfold calls_since. fields. rewrite <- app_assoc, Hqueue.
  repeat split; try reflexivity. exact Hs1.
Qed.

Lemma connection_attempt_resets_counter (s0 s : state) :
  connection_attempt s0 s -> g_retry_number s = 0.
Proof.
  intros [H | (c & -> & H)]; revert H; fw_unfold.
  - case_status; [|discriminate]. case_status; [|discriminate].
    intros [= <-]. reflexivity.
  - unfold wifi_app_start. fw_unfold.
    case_status; [|discriminate]. case_status; [|discriminate].
    cbn. intros [= <-]. reflexivity.
Qed.

(** C3. A station-disconnected event with the retry counter below
    [MAX_CONNECTION_RETRIES] issues a direct reconnect, adds one to the
    counter and queues no message; with the counter at the cap it queues
    [WIFI_APP_MSG_STA_DISCONNECTED] and issues no reconnect. Hence the
    disconnect events that follow a connection attempt are answered by
    exactly [MAX_CONNECTION_RETRIES] direct reconnects, during which the
    queue receives nothing, and the next one puts the escalated message in
    the queue. *)
Theorem fast_path_fires_max_retries_before_escalation :
  0 <= MAX_CONNECTION_RETRIES <= INT_MAX ->
  (forall s reason,
     well_formed s -> g_retry_number s < MAX_CONNECTION_RETRIES ->
     exists s',
       wifi_app_event_handler (WIFI_EVENT (WIFI_EVENT_STA_DISCONNECTED reason)) s =
         Done tt s' /\
       calls_since s s' [Call_ESP_LOGI "WIFI_EVENT_STA_DISCONNECTED";
                         Call_ESP_LOGI_reason reason;
                         Call_esp_wifi_connect] /\
       g_retry_number s' = g_retry_number s + 1 /\
       wifi_app_queue s' = wifi_app_queue s) /\
  (forall s reason,
     queue_has_room s -> g_retry_number s = MAX_CONNECTION_RETRIES ->
     exists s',
       wifi_app_event_handler (WIFI_EVENT (WIFI_EVENT_STA_DISCONNECTED reason)) s =
         Done tt s' /\
       calls_since s s' [Call_ESP_LOGI "WIFI_EVENT_STA_DISCONNECTED";
                         Call_ESP_LOGI_reason reason] /\
       g_retry_number s' = g_retry_number s /\
       wifi_app_queue s' = wifi_app_queue s ++ [WIFI_APP_MSG_STA_DISCONNECTED]) /\
  (forall s0 s reasons reason,
     connection_attempt s0 s -> queue_has_room s ->
     List.length reasons = Z.to_nat MAX_CONNECTION_RETRIES ->
     exists s1 s2 cs,
       run (map sta_disconnected reasons) s = Done [] s1 /\
       calls_since s s1 cs /\
       reconnects cs = Z.to_nat MAX_CONNECTION_RETRIES /\
       wifi_app_queue s1 = wifi_app_queue s /\
       g_retry_number s1 = MAX_CONNECTION_RETRIES /\
       wifi_app_event_handler (WIFI_EVENT (WIFI_EVENT_STA_DISCONNECTED reason)) s1 =
         Done tt s2 /\
       calls_since s1 s2 [Call_ESP_LOGI "WIFI_EVENT_STA_DISCONNECTED";
                          Call_ESP_LOGI_reason reason] /\
       wifi_app_queue s2 = wifi_app_queue s ++ [WIFI_APP_MSG_STA_DISCONNECTED]).
Proof.
  intros [Hmax0 Hmax]. split; [|split].
  - intros s reason [[Hlo _] _] Hlt.
    rewrite (sta_disconnected_below_cap s reason Hlo Hmax Hlt).
    eexists. split; [reflexivity|]. unfold calls_since. fields.
    rewrite <- !app_assoc. repeat split; reflexivity.
  - intros s reason Hroom Heq.
    rewrite (sta_disconnected_at_cap s reason Hroom ltac:(lia)).
    eexists. split; [reflexivity|]. unfold calls_since. fields.
    rewrite <- !app_assoc. repeat split; reflexivity.
  - intros s0 s reasons reason Hattempt Hroom Hlen.
    pose proof (connection_attempt_resets_counter s0 s Hattempt) as Hzero.
    destruct (fast_path_budget s reasons reason) as (s1 & s2 & cs & H);
      [unfold INT_MIN; lia | assumption | rewrite Hzero, Z.sub_0_r; assumption
      | assumption |].
    rewrite Hzero, Z.sub_0_r in H.
    exists s1, s2, cs. intuition.
Qed.

(** ** Successful connection *)

(** What processing [WIFI_APP_MSG_STA_CONNECTED_GOT_IP] does, in full: it
    always returns; the calls, the flags and the store are determined by
    the flags at entry, the slot and the registered callback. *)
Lemma sta_connected_got_ip_spec (s : state) :
  exists s',
    wifi_app_task_switch WIFI_APP_MSG_STA_CONNECTED_GOT_IP s = Done tt s' /\
    calls_since s s'
      ([Call_ESP_LOGI "WIFI_APP_MSG_STA_CONNECTED_GOT_IP";
        Call_rgb_led_wifi_connected;
        Call_http_server_monitor_send_message HTTP_MSG_WIFI_CONNECT_SUCCESS] ++
       (if UsingSavedCredentials s then []
        else [Call_app_nvs_save_sta_creds (wifi_config s)]) ++
       match wifi_connected_event_cb s with
       | Some cb => [Call_wifi_connected_event_cb cb]
       | None => []
       end) /\
    nvs_sta_creds s' =
      (if UsingSavedCredentials s then nvs_sta_creds s else Some (wifi_config s)) /\
    ConnectedWithIp s' = true /\
    UsingSavedCredentials s' = false /\
    InitiatedFromConfigService s' = false /\
    g_retry_number s' = g_retry_number s /\
    wifi_config s' = wifi_config s /\
    wifi_app_queue s' = wifi_app_queue s /\
    wifi_mode s' = wifi_mode s /\
    wifi_connected_event_cb s' = wifi_connected_event_cb s.
Proof.
  unfold UsingSavedCredentials, InitiatedFromConfigService, calls_since.
  fw_unfold.
  destruct (bits_and (wifi_app_event_group s) WIFI_APP_CONNECTING_USING_SAVED_CREDS_BIT) eqn:Hsaved;
    destruct (bits_and (wifi_app_event_group s) WIFI_APP_CONNECTING_FROM_HTTP_SERVER_BIT) eqn:Hhttp;
    fw_unfold;
    destruct (wifi_connected_event_cb s) as [cb|] eqn:Hcb;
    fw_unfold; rewrite ?Hcb;
    eexists; (split; [reflexivity|]); fields;
    rewrite <- ?app_assoc; cbn [app];
    repeat split; try reflexivity; try assumption; flags; try reflexivity; try assumption.
Qed.

(** C1, at the input on which the code departs from it. When
    [WIFI_APP_MSG_STA_CONNECTED_GOT_IP] is processed with both origin flags
    clear, so that the attempt did not originate from the configuration
    service, the handler still calls [app_nvs_save_sta_creds] and the slot
    is written to NVS: the code tests the saved-credentials flag only. *)
Theorem got_ip_without_origin_flag_persists (s : state) :
  UsingSavedCredentials s = false ->
  InitiatedFromConfigService s = false ->
  exists s' cs,
    wifi_app_task_switch WIFI_APP_MSG_STA_CONNECTED_GOT_IP s = Done tt s' /\
    calls_since s s' cs /\
    In (Call_app_nvs_save_sta_creds (wifi_config s)) cs /\
    nvs_sta_creds s' = Some (wifi_config s).
Proof.
  intros Hsaved _.
  destruct (sta_connected_got_ip_spec s) as (s' & Hrun & Hcalls & Hnvs & _).
  rewrite Hsaved in Hcalls, Hnvs.
  exists s'. eexists. split; [exact Hrun|]. split; [exact Hcalls|].
  split; [|exact Hnvs].
  cbn [app In]. do 3 right. left. reflexivity.
Qed.

(** The handler persists exactly when the saved-credentials flag was clear
    at entry, whatever the configuration-service flag. *)
Lemma got_ip_persists_iff_not_saved (s : state) :
  exists s' cs,
    wifi_app_task_switch WIFI_APP_MSG_STA_CONNECTED_GOT_IP s = Done tt s' /\
    calls_since s s' cs /\
    (In (Call_app_nvs_save_sta_creds (wifi_config s)) cs <->
     UsingSavedCredentials s = false).
Proof.
  destruct (sta_connected_got_ip_spec s) as (s' & Hrun & Hcalls & _).
  exists s'. eexists. split; [exact Hrun|]. split; [exact Hcalls|].
  destruct (UsingSavedCredentials s), (wifi_connected_event_cb s); cbn [app In]; split;
    solve [ intros _; reflexivity
          | intros _; do 3 right; left; reflexivity
          | intros H; repeat (destruct H as [H|H]; try discriminate H); contradiction
          | intros H; discriminate H ].
Qed.

(** C10. Processing [WIFI_APP_MSG_STA_CONNECTED_GOT_IP] leaves the retry
    counter as it was. So when the counter stood at k at the success, the
    disconnect events after it get [MAX_CONNECTION_RETRIES] - k direct
    reconnects and the next one is escalated. *)
Theorem got_ip_keeps_retry_counter :
  (forall s, exists s',
     wifi_app_task_switch WIFI_APP_MSG_STA_CONNECTED_GOT_IP s = Done tt s' /\
     g_retry_number s' = g_retry_number s) /\
  (forall s s' reasons reason,
     0 <= g_retry_number s <= MAX_CONNECTION_RETRIES ->
     MAX_CONNECTION_RETRIES <= INT_MAX ->
     queue_has_room s ->
     wifi_app_task_switch WIFI_APP_MSG_STA_CONNECTED_GOT_IP s = Done tt s' ->
     List.length reasons = Z.to_nat (MAX_CONNECTION_RETRIES - g_retry_number s) ->
     exists s1 s2 cs,
       run (map sta_disconnected reasons) s' = Done [] s1 /\
       calls_since s' s1 cs /\
       reconnects cs = Z.to_nat (MAX_CONNECTION_RETRIES - g_retry_number s) /\
       wifi_app_queue s1 = wifi_app_queue s' /\
       wifi_app_event_handler (WIFI_EVENT (WIFI_EVENT_STA_DISCONNECTED reason)) s1 =
         Done tt s2 /\
       calls_since s1 s2 [Call_ESP_LOGI "WIFI_EVENT_STA_DISCONNECTED";
                          Call_ESP_LOGI_reason reason] /\
       wifi_app_queue s2 = wifi_app_queue s' ++ [WIFI_APP_MSG_STA_DISCONNECTED]).
Proof.
  split.
  - intros s.
    destruct (sta_connected_got_ip_spec s)
      as (s' & Hrun & _ & _ & _ & _ & _ & Hretry & _).
    exists s'. split; assumption.
  - intros s s' reasons reason Hk Hmax Hroom Hrun Hlen.
    destruct (sta_connected_got_ip_spec s)
      as (s'' & Hrun' & _ & _ & _ & _ & _ & Hretry & _ & Hqueue & _).
    rewrite Hrun in Hrun'. injection Hrun' as <-.
    destruct (fast_path_budget s' reasons reason) as (s1 & s2 & cs & H).
    + rewrite Hretry. unfold INT_MIN. lia.
    + exact Hmax.
    + rewrite Hretry. exact Hlen.
    + unfold queue_has_room. rewrite Hqueue. exact Hroom.
    + rewrite Hretry in H. exists s1, s2, cs. intuition.
Qed.

(** ** Reachable states *)

(** Splits on the next test the code makes on the state. *)
Ltac fw_cases :=
  repeat (fw_unfold;
          match goal with
          | |- context [match nvs_sta_creds ?s with _ => _ end] =>
              destruct (nvs_sta_creds s) eqn:?
          | |- context [match wifi_connected_event_cb ?s with _ => _ end] =>
              destruct (wifi_connected_event_cb s) eqn:?
          | |- context [if ?b then _ else _] => destruct b eqn:?
          end);
  fw_unfold.

Lemma last_connection_message_app (p p' : list wifi_app_message_e) :
  last_connection_message (p ++ p') =
  match last_connection_message p' with
  | Some m => Some m
  | None => last_connection_message p
  end.
Proof.
  induction p as [|m p IH]; cbn [app last_connection_message].
  - destruct (last_connection_message p'); reflexivity.
  - rewrite IH. destruct (last_connection_message p'); reflexivity.
Qed.

Lemma run_cons (i : input) (inputs : list input) (s s' : state)
  (p : list wifi_app_message_e) :
  run (i :: inputs) s = Done p s' ->
  exists p1 s1 p2,
    step i s = Done p1 s1 /\ run inputs s1 = Done p2 s' /\ p = p1 ++ p2.
Proof.
  cbn [run]. unfold bind, ret.
  destruct (step i s) as [p1 s1| |]; try discriminate.
  destruct (run inputs s1) as [p2 s2| |] eqn:Hrun; try discriminate.
  intros [= <- <-]. exists p1, s1, p2. auto.
Qed.

(** The flags are written by the orchestrator only: every input but a
    turn of the task leaves the event group as it was. *)
Lemma step_outside_task (i : input) (s s' : state) (p : list wifi_app_message_e) :
  i <> Task_turn -> step i s = Done p s' ->
  p = [] /\ wifi_app_event_group s' = wifi_app_event_group s.
Proof.
  intros Hi. destruct i as [event| | | | |]; try contradiction; cbn [step].
  - destruct event as [[]|[]|]; fw_cases; intros [= <- <-]; split; reflexivity.
  - fw_cases; try discriminate; intros [= <- <-]; split; reflexivity.
  - fw_cases; try discriminate; intros [= <- <-]; split; reflexivity.
  - fw_cases; intros [= <- <-]; split; reflexivity.
  - fw_cases; intros [= <- <-]; split; reflexivity.
Qed.

(** A turn of the task takes the head of the queue through the switch. *)
Lemma step_task_turn (s s' : state) (p : list wifi_app_message_e) :
  step Task_turn s = Done p s' ->
  exists msgID q,
    wifi_app_queue s = msgID :: q /\ p = [msgID] /\
    wifi_app_task_switch msgID (set_wifi_app_queue q s) = Done tt s'.
Proof.
  cbn [step]. unfold wifi_app_task, xQueueReceive, bind, ret.
  destruct (wifi_app_queue s) as [|msgID q]; try discriminate.
  destruct (wifi_app_task_switch msgID _) as [[] s1| |] eqn:Hsw; try discriminate.
  intros [= <- <-]. exists msgID, q. auto.
Qed.

Lemma switch_connected_with_ip (msgID : wifi_app_message_e) (s s' : state) :
  wifi_app_task_switch msgID s = Done tt s' ->
  ConnectedWithIp s' =
  match msgID with
  | WIFI_APP_MSG_STA_CONNECTED_GOT_IP => true
  | WIFI_APP_MSG_STA_DISCONNECTED
  | WIFI_APP_MSG_USER_REQUESTED_STA_DISCONNECT => false
  | _ => ConnectedWithIp s
  end.
Proof.
  destruct msgID; fw_cases; try discriminate; intros [= <-]; flags;
    try reflexivity; try assumption.
Qed.

Lemma step_connected_with_ip (i : input) (s s' : state)
  (p : list wifi_app_message_e) :
  step i s = Done p s' ->
  ConnectedWithIp s' =
  match last_connection_message p with
  | Some WIFI_APP_MSG_STA_CONNECTED_GOT_IP => true
  | Some _ => false
  | None => ConnectedWithIp s
  end.
Proof.
  intros Hstep.
  assert (Hi : i = Task_turn \/ i <> Task_turn)
    by (destruct i; (left; reflexivity) || (right; discriminate)).
  destruct Hi as [-> | Hi].
  - apply step_task_turn in Hstep. destruct Hstep as (msgID & q & Hq & -> & Hsw).
    apply switch_connected_with_ip in Hsw. rewrite Hsw.
    destruct msgID; reflexivity.
  - destruct (step_outside_task i s s' p Hi Hstep) as [-> Hbits].
    unfold ConnectedWithIp. rewrite Hbits. reflexivity.
Qed.

Lemma run_connected_with_ip (inputs : list input) :
  forall (s s' : state) (p : list wifi_app_message_e),
    run inputs s = Done p s' ->
    ConnectedWithIp s' =
    match last_connection_message p with
    | Some WIFI_APP_MSG_STA_CONNECTED_GOT_IP => true
    | Some _ => false
    | None => ConnectedWithIp s
    end.
Proof.
  induction inputs as [|i inputs IH]; intros s s' p Hrun.
  - injection Hrun as <- <-. reflexivity.
  - apply run_cons in Hrun. destruct Hrun as (p1 & s1 & p2 & Hstep & Hrun & ->).
    rewrite last_connection_message_app, (IH _ _ _ Hrun).
    destruct (last_connection_message p2); [reflexivity|].
    exact (step_connected_with_ip i s s1 p1 Hstep).
Qed.

(** C7. ConnectedWithIp is clear at startup, and in every state the
    firmware reaches it is set exactly when, among the processed messages
    [WIFI_APP_MSG_STA_CONNECTED_GOT_IP], [WIFI_APP_MSG_STA_DISCONNECTED] and
    [WIFI_APP_MSG_USER_REQUESTED_STA_DISCONNECT], the most recent one is
    [WIFI_APP_MSG_STA_CONNECTED_GOT_IP]. *)
Theorem connected_with_ip_since_last_got_ip
  (stored : option wifi_sta_config_t) (inputs : list input)
  (processed : list wifi_app_message_e) (s : state) :
  run inputs (wifi_app_start stored) = Done processed s ->
  ConnectedWithIp (wifi_app_start stored) = false /\
  (ConnectedWithIp s = true <->
   last_connection_message processed = Some WIFI_APP_MSG_STA_CONNECTED_GOT_IP).
Proof.
  intros Hrun. split; [reflexivity|].
  rewrite (run_connected_with_ip _ _ _ _ Hrun).
  destruct (last_connection_message processed) as [[]|]; cbn; split;
    congruence.
Qed.

(** ** The two origin flags *)

Lemma switch_keeps_origins_apart (msgID : wifi_app_message_e) (s s' : state) :
  wifi_app_task_switch msgID s = Done tt s' ->
  (msgID = WIFI_APP_MSG_CONNECTING_FROM_HTTP_SERVER -> UsingSavedCredentials s = false) ->
  (msgID = WIFI_APP_MSG_LOAD_SAVED_CREDENTIALS -> InitiatedFromConfigService s = false) ->
  UsingSavedCredentials s && InitiatedFromConfigService s = false ->
  UsingSavedCredentials s' && InitiatedFromConfigService s' = false.
Proof.
  destruct msgID; intros Hsw Hhttp Hload; revert Hsw;
    try (specialize (Hhttp eq_refl)); try (specialize (Hload eq_refl));
    fw_cases; try discriminate; intros [= <-] Hinv; flags;
    repeat match goal with
           | H : Z.testbit _ _ = _ |- _ => rewrite H in *
           end;
    try reflexivity; try assumption; try discriminate;
    cbn [andb orb] in *; rewrite ?andb_false_r; try reflexivity; try assumption.
Qed.

Lemma step_keeps_origins_apart (i : input) (s s' : state)
  (p : list wifi_app_message_e) :
  step i s = Done p s' ->
  origin_guard i s = true ->
  UsingSavedCredentials s && InitiatedFromConfigService s = false ->
  UsingSavedCredentials s' && InitiatedFromConfigService s' = false.
Proof.
  intros Hstep Hguard Hinv.
  assert (Hi : i = Task_turn \/ i <> Task_turn)
    by (destruct i; (left; reflexivity) || (right; discriminate)).
  destruct Hi as [-> | Hi].
  - apply step_task_turn in Hstep. destruct Hstep as (msgID & q & Hq & _ & Hsw).
    unfold origin_guard in Hguard. rewrite Hq in Hguard.
    apply (switch_keeps_origins_apart msgID _ _ Hsw).
    + intros ->. apply negb_true_iff in Hguard. exact Hguard.
    + intros ->. apply negb_true_iff in Hguard. exact Hguard.
    + exact Hinv.
  - destruct (step_outside_task i s s' p Hi Hstep) as [_ Hbits].
    unfold UsingSavedCredentials, InitiatedFromConfigService in *.
    rewrite Hbits. exact Hinv.
Qed.

Lemma run_keeps_origins_apart (inputs : list input) :
  forall (s s' : state) (p : list wifi_app_message_e),
    run inputs s = Done p s' ->
    origins_kept_apart inputs s = true ->
    UsingSavedCredentials s && InitiatedFromConfigService s = false ->
    UsingSavedCredentials s' && InitiatedFromConfigService s' = false.
Proof.
  induction inputs as [|i inputs IH]; intros s s' p Hrun Hguard Hinv.
  - injection Hrun as <- <-. exact Hinv.
  - apply run_cons in Hrun. destruct Hrun as (p1 & s1 & p2 & Hstep & Hrun & ->).
    cbn [origins_kept_apart] in Hguard. rewrite Hstep in Hguard.
    apply andb_true_iff in Hguard. destruct Hguard as [Hguard Hrest].
    apply (IH s1 s' p2 Hrun Hrest).
    exact (step_keeps_origins_apart i s s1 p1 Hstep Hguard Hinv).
Qed.

(** C2, as the code has it. In every state the firmware reaches from the
    all-clear flags of startup by a schedule in which
    [WIFI_APP_MSG_CONNECTING_FROM_HTTP_SERVER] is never processed while
    UsingSavedCredentials is set and [WIFI_APP_MSG_LOAD_SAVED_CREDENTIALS] is
    never processed while InitiatedFromConfigService is set, the two origin
    flags are not both set. *)
Theorem origin_flags_exclusive_when_kept_apart
  (stored : option wifi_sta_config_t) (inputs : list input)
  (processed : list wifi_app_message_e) (s : state) :
  run inputs (wifi_app_start stored) = Done processed s ->
  origins_kept_apart inputs (wifi_app_start stored) = true ->
  UsingSavedCredentials s && InitiatedFromConfigService s = false.
Proof.
  intros Hrun Hguard.
  exact (run_keeps_origins_apart inputs _ _ _ Hrun Hguard eq_refl).
Qed.

(** ** Well-formed states *)

Lemma wrap_int_range (z : Z) : INT_MIN <= wrap_int z <= INT_MAX.
Proof.
  unfold wrap_int, INT_MIN, INT_MAX.
  pose proof (Z.mod_pos_bound (z - -2147483648) (2 ^ 32) ltac:(lia)). lia.
Qed.

Ltac queue_bound :=
  repeat match goal with
         | H : (_ <? _)%nat = true |- _ => apply Nat.ltb_lt in H
         end;
  rewrite ?length_app; cbn [List.length] in *;
  unfold WIFI_APP_QUEUE_LENGTH in *; lia.

Lemma switch_well_formed (msgID : wifi_app_message_e) (s s' : state) :
  INT_MIN <= MAX_CONNECTION_RETRIES <= INT_MAX ->
  well_formed s ->
  wifi_app_task_switch msgID s = Done tt s' ->
  well_formed s'.
Proof.
  unfold well_formed. intros Hmax [Hint Hlen].
  destruct msgID; fw_cases; try discriminate; intros [= <-]; fields;
    (split; [first [assumption | apply wrap_int_range | unfold INT_MIN, INT_MAX; lia]
            | queue_bound]).
Qed.

Lemma step_well_formed (i : input) (s s' : state) (p : list wifi_app_message_e) :
  INT_MIN <= MAX_CONNECTION_RETRIES <= INT_MAX ->
  well_formed s ->
  step i s = Done p s' ->
  well_formed s'.
Proof.
  intros Hmax Hwf. destruct i as [event| | | | |]; cbn [step].
  - unfold well_formed in *. destruct Hwf as [Hint Hlen].
    destruct event as [[]|[]|]; fw_cases; try discriminate; intros [= <- <-];
      fields; (split; [assumption || apply wrap_int_range | queue_bound]).
  - unfold well_formed in *. destruct Hwf as [Hint Hlen].
    fw_cases; try discriminate; intros [= <- <-]; fields.
    split; [assumption | queue_bound].
  - unfold well_formed in *. destruct Hwf as [Hint Hlen].
    fw_cases; try discriminate; intros [= <- <-]; fields.
    split; [assumption | queue_bound].
  - fw_cases. intros [= <- <-]. exact Hwf.
  - fw_cases. intros [= <- <-]. exact Hwf.
  - intros Hstep. apply step_task_turn in Hstep.
    destruct Hstep as (msgID & q & Hq & _ & Hsw).
    apply (switch_well_formed msgID _ _ Hmax) in Hsw; [exact Hsw|].
    unfold well_formed in *. fields. rewrite Hq in Hwf. cbn [List.length] in Hwf.
    split; [tauto | lia].
Qed.

(** Every state the firmware reaches holds an [int] in the retry counter
    and at most [WIFI_APP_QUEUE_LENGTH] messages in the queue. *)
Lemma run_well_formed (inputs : list input) :
  forall (s s' : state) (p : list wifi_app_message_e),
    INT_MIN <= MAX_CONNECTION_RETRIES <= INT_MAX ->
    well_formed s ->
    run inputs s = Done p s' ->
    well_formed s'.
Proof.
  induction inputs as [|i inputs IH]; intros s s' p Hmax Hwf Hrun.
  - injection Hrun as <- <-. exact Hwf.
  - apply run_cons in Hrun. destruct Hrun as (p1 & s1 & p2 & Hstep & Hrun & ->).
    apply (IH s1 s' p2 Hmax); [|exact Hrun].
    exact (step_well_formed i s s1 p1 Hmax Hwf Hstep).
Qed.

Lemma wifi_app_start_well_formed (stored : option wifi_sta_config_t) :
  well_formed (wifi_app_start stored).
Proof.
  unfold well_formed, wifi_app_start, INT_MIN, INT_MAX, WIFI_APP_QUEUE_LENGTH.
  cbn. lia.
Qed.

(** ** Progress of the orchestrator *)

(** Runs the switch on a state whose driver calls succeed and whose queue
    has room, splitting on the tests it makes. *)
Ltac fw_ok_cases Hok Hroom :=
  repeat (fw_driver Hok; rewrite ?Hroom;
          match goal with
          | |- context [match nvs_sta_creds ?s with _ => _ end] =>
              destruct (nvs_sta_creds s) eqn:?
          | |- context [match wifi_connected_event_cb ?s with _ => _ end] =>
              destruct (wifi_connected_event_cb s) eqn:?
          | |- context [if bits_and ?b ?m then _ else _] =>
              destruct (bits_and b m) eqn:?
          end);
  fw_driver Hok; rewrite ?Hroom.

(** X1. With a message pending, a well-formed state and a driver that
    accepts every request, a turn of the task always completes: it
    processes the head of the queue, keeps the rest in order, and the only
    message it adds at the back is the [WIFI_APP_MSG_START_HTTP_SERVER] of
    a load, for which the slot freed by the receive is enough. *)
Theorem task_turn_completes (s : state) (msgID : wifi_app_message_e)
  (q : list wifi_app_message_e) :
  driver_ok -> well_formed s -> wifi_app_queue s = msgID :: q ->
  exists s',
    wifi_app_task s = Done msgID s' /\
    (List.length (wifi_app_queue s') <= WIFI_APP_QUEUE_LENGTH)%nat /\
    wifi_app_queue s' =
      match msgID with
      | WIFI_APP_MSG_LOAD_SAVED_CREDENTIALS => q ++ [WIFI_APP_MSG_START_HTTP_SERVER]
      | _ => q
      end.
Proof.
  intros Hok Hwf Hq.
  pose proof (queue_room_after_receive s _ q Hwf Hq) as Hroom.
  assert (Hlen : (List.length q < WIFI_APP_QUEUE_LENGTH)%nat)
    by (apply Nat.ltb_lt; exact Hroom).
  unfold WIFI_APP_QUEUE_LENGTH in Hlen.
  destruct msgID; fw_unfold; rewrite Hq; fw_ok_cases Hok Hroom;
    eexists; (split; [reflexivity|]); fields;
    rewrite ?length_app; cbn [List.length]; unfold WIFI_APP_QUEUE_LENGTH;
    split; try reflexivity; lia.
Qed.

(** ** Invariants of the reachable states *)

Lemma switch_queue_capacity (msgID : wifi_app_message_e) (s s' : state) :
  (List.length (wifi_app_queue s) <= WIFI_APP_QUEUE_LENGTH)%nat ->
  wifi_app_task_switch msgID s = Done tt s' ->
  (List.length (wifi_app_queue s') <= WIFI_APP_QUEUE_LENGTH)%nat.
Proof.
  intros Hlen.
  destruct msgID; fw_cases; try discriminate; intros [= <-]; fields; queue_bound.
Qed.

Lemma step_queue_capacity (i : input) (s s' : state) (p : list wifi_app_message_e) :
  (List.length (wifi_app_queue s) <= WIFI_APP_QUEUE_LENGTH)%nat ->
  step i s = Done p s' ->
  (List.length (wifi_app_queue s') <= WIFI_APP_QUEUE_LENGTH)%nat.
Proof.
  intros Hlen. destruct i as [event| | | | |]; cbn [step].
  - destruct event as [[]|[]|]; fw_cases; try discriminate; intros [= <- <-];
      fields; queue_bound.
  - fw_cases; try discriminate; intros [= <- <-]; fields; queue_bound.
  - fw_cases; try discriminate; intros [= <- <-]; fields; queue_bound.
  - fw_cases. intros [= <- <-]. exact Hlen.
  - fw_cases. intros [= <- <-]. exact Hlen.
  - intros Hstep. apply step_task_turn in Hstep.
    destruct Hstep as (msgID & q & Hq & _ & Hsw).
    apply (switch_queue_capacity msgID _ _) in Hsw; [exact Hsw|].
    fields. rewrite Hq in Hlen. cbn [List.length] in Hlen. lia.
Qed.

Lemma switch_retry_bounded (msgID : wifi_app_message_e) (s s' : state) :
  0 <= MAX_CONNECTION_RETRIES <= INT_MAX ->
  0 <= g_retry_number s <= MAX_CONNECTION_RETRIES ->
  wifi_app_task_switch msgID s = Done tt s' ->
  0 <= g_retry_number s' <= MAX_CONNECTION_RETRIES.
Proof.
  intros Hmax Hb.
  destruct msgID; fw_cases; try discriminate; intros [= <-]; fields;
    rewrite ?wrap_int_in_range by (unfold INT_MIN; lia); lia.
Qed.

Lemma step_retry_bounded (i : input) (s s' : state) (p : list wifi_app_message_e) :
  0 <= MAX_CONNECTION_RETRIES <= INT_MAX ->
  0 <= g_retry_number s <= MAX_CONNECTION_RETRIES ->
  step i s = Done p s' ->
  0 <= g_retry_number s' <= MAX_CONNECTION_RETRIES.
Proof.
  intros Hmax Hb. destruct i as [event| | | | |]; cbn [step].
  - destruct event as [[]|[]|]; fw_cases; try discriminate; intros [= <- <-];
      fields; try exact Hb.
    match goal with H : (_ <? _) = true |- _ => apply Z.ltb_lt in H end.
    rewrite wrap_int_in_range by (unfold INT_MIN; lia). lia.
  - fw_cases; try discriminate; intros [= <- <-]; fields; exact Hb.
  - fw_cases; try discriminate; intros [= <- <-]; fields; exact Hb.
  - fw_cases. intros [= <- <-]. exact Hb.
  - fw_cases. intros [= <- <-]. exact Hb.
  - intros Hstep. apply step_task_turn in Hstep.
    destruct Hstep as (msgID & q & Hq & _ & Hsw).
    apply (switch_retry_bounded msgID _ _ Hmax) in Hsw; [exact Hsw|].
    fields. exact Hb.
Qed.

(** X2. For a cap that is a non-negative [int], the retry counter of every
    reachable state lies between zero and [MAX_CONNECTION_RETRIES]: the
    bridge stops counting at the cap and the orchestrator only writes zero
    or the cap. *)
Theorem reachable_retry_counter_bounded
  (stored : option wifi_sta_config_t) (inputs : list input)
  (processed : list wifi_app_message_e) (s : state) :
  0 <= MAX_CONNECTION_RETRIES <= INT_MAX ->
  run inputs (wifi_app_start stored) = Done processed s ->
  0 <= g_retry_number s <= MAX_CONNECTION_RETRIES.
Proof.
  intros Hmax.
  assert (Hgen : forall inputs s0 s' p,
             0 <= g_retry_number s0 <= MAX_CONNECTION_RETRIES ->
             run inputs s0 = Done p s' ->
             0 <= g_retry_number s' <= MAX_CONNECTION_RETRIES).
  { clear - Hmax. induction inputs as [|i inputs IH]; intros s0 s' p Hb Hrun.
    - injection Hrun as <- <-. exact Hb.
    - apply run_cons in Hrun. destruct Hrun as (p1 & s1 & p2 & Hstep & Hrun & ->).
      apply (IH s1 s' p2); [|exact Hrun].
      exact (step_retry_bounded i s0 s1 p1 Hmax Hb Hstep). }
  intros Hrun. apply (Hgen inputs (wifi_app_start stored) s processed); [|exact Hrun].
  cbn. lia.
Qed.

(** ** The retry counter at a connection attempt *)

Lemma step_before_first_connect (i : input) (s s' : state)
  (p : list wifi_app_message_e) :
  precedes_first_connect i = true ->
  step i s = Done p s' ->
  g_retry_number s' = g_retry_number s /\
  nvs_sta_creds s' = nvs_sta_creds s /\
  exists extra, wifi_app_queue s' = wifi_app_queue s ++ extra.
Proof.
  intros Hi.
  destruct i as [event| | | | |]; try discriminate Hi; cbn [step].
  - destruct event as [[]|[]|]; try discriminate Hi;
      fw_cases; try discriminate; intros [= <- <-]; fields;
      (split; [reflexivity|]); (split; [reflexivity|]);
      first [ exists (@nil wifi_app_message_e); rewrite app_nil_r; reflexivity
            | eexists; reflexivity ].
  - fw_cases; try discriminate; intros [= <- <-]; fields;
      repeat split; eexists; reflexivity.
  - fw_cases; try discriminate; intros [= <- <-]; fields;
      repeat split; eexists; reflexivity.
  - fw_cases; intros [= <- <-]; fields; repeat split;
      exists (@nil wifi_app_message_e); rewrite app_nil_r; reflexivity.
  - fw_cases; intros [= <- <-]; fields; repeat split;
      exists (@nil wifi_app_message_e); rewrite app_nil_r; reflexivity.
Qed.

Lemma run_before_first_connect (inputs : list input) :
  forall (s s' : state) (p : list wifi_app_message_e),
    before_first_connect inputs = true ->
    (List.length (wifi_app_queue s) <= WIFI_APP_QUEUE_LENGTH)%nat ->
    run inputs s = Done p s' ->
    g_retry_number s' = g_retry_number s /\
    nvs_sta_creds s' = nvs_sta_creds s /\
    (List.length (wifi_app_queue s') <= WIFI_APP_QUEUE_LENGTH)%nat /\
    exists extra, wifi_app_queue s' = wifi_app_queue s ++ extra.
Proof.
  induction inputs as [|i inputs IH]; intros s s' p Hpre Hlen Hrun.
  - injection Hrun as <- <-. repeat split; try assumption.
    exists []. rewrite app_nil_r. reflexivity.
  - apply run_cons in Hrun. destruct Hrun as (p1 & s1 & p2 & Hstep & Hrun & ->).
    cbn [before_first_connect forallb] in Hpre. apply andb_true_iff in Hpre.
    destruct Hpre as [Hi Hpre].
    destruct (step_before_first_connect i s s1 p1 Hi Hstep) as (Hr1 & Hn1 & e1 & Hq1).
    pose proof (step_queue_capacity i s s1 p1 Hlen Hstep) as Hlen1.
    destruct (IH s1 s' p2 Hpre Hlen1 Hrun) as (Hr2 & Hn2 & Hlen2 & e2 & Hq2).
    split; [congruence|]. split; [congruence|]. split; [exact Hlen2|].
    exists (e1 ++ e2). rewrite Hq2, Hq1, app_assoc. reflexivity.
Qed.

(** The load never writes the retry counter. *)
Lemma load_with_credentials_turn (s : state) (c : wifi_sta_config_t)
  (q : list wifi_app_message_e) :
  driver_ok ->
  wifi_app_queue s = WIFI_APP_MSG_LOAD_SAVED_CREDENTIALS :: q ->
  (List.length q <? WIFI_APP_QUEUE_LENGTH)%nat = true ->
  nvs_sta_creds s = Some c ->
  exists s' cs,
    wifi_app_task s = Done WIFI_APP_MSG_LOAD_SAVED_CREDENTIALS s' /\
    calls_since s s' cs /\ In Call_esp_wifi_connect cs /\
    g_retry_number s' = g_retry_number s.
Proof.
  intros Hok Hq Hroom Hnvs. unfold calls_since.
  fw_unfold. rewrite Hq. fw_unfold. rewrite Hnvs. fw_driver Hok. rewrite Hroom.
  do 2 eexists. split; [reflexivity|]. fields.
  rewrite <- ?app_assoc. cbn [app].
  split; [reflexivity|]. split; [|reflexivity].
  cbn [In]. do 4 right. left. reflexivity.
Qed.

(** C4. Each of the two operations that issue a connect command leaves the
    retry counter at zero. Processing
    [WIFI_APP_MSG_CONNECTING_FROM_HTTP_SERVER] does so in every state: it
    assigns zero. The [WIFI_APP_MSG_LOAD_SAVED_CREDENTIALS] of the source is
    sent once, before the loop, and is at the head of the queue when the
    task takes its first turn; that turn issues the connect command with
    the stored credentials and leaves the counter at the zero of its
    initialisation, whatever events, button presses, sent messages and
    slot writes come before it, a station-disconnected event apart. *)
Theorem retry_counter_at_connection_attempt :
  driver_ok ->
  (forall s, exists s' cs,
     wifi_app_task_switch WIFI_APP_MSG_CONNECTING_FROM_HTTP_SERVER s = Done tt s' /\
     calls_since s s' cs /\ In Call_esp_wifi_connect cs /\
     g_retry_number s' = 0) /\
  (forall c before p s,
     before_first_connect before = true ->
     run before (wifi_app_start (Some c)) = Done p s ->
     exists s' cs,
       wifi_app_task s = Done WIFI_APP_MSG_LOAD_SAVED_CREDENTIALS s' /\
       calls_since s s' cs /\ In Call_esp_wifi_connect cs /\
       g_retry_number s' = 0).
Proof.
  intros Hok. split.
  - intros s. unfold calls_since. fw_driver Hok.
    do 2 eexists. split; [reflexivity|]. fields.
    rewrite <- ?app_assoc. cbn [app].
    split; [reflexivity|]. split; [|reflexivity].
    cbn [In]. do 2 right. left. reflexivity.
  - intros c before p s Hpre Hrun.
    assert (Hstart : (List.length (wifi_app_queue (wifi_app_start (Some c))) <=
                      WIFI_APP_QUEUE_LENGTH)%nat)
      by (cbn; unfold WIFI_APP_QUEUE_LENGTH; lia).
    destruct (run_before_first_connect before (wifi_app_start (Some c)) s p
                Hpre Hstart Hrun)
      as (Hretry & Hnvs & Hlen & extra & Hq).
    cbn [wifi_app_start g_retry_number nvs_sta_creds wifi_app_queue app] in Hretry, Hnvs, Hq.
    rewrite Hq in Hlen. cbn [List.length] in Hlen.
    destruct (load_with_credentials_turn s c extra Hok Hq
                ltac:(apply Nat.ltb_lt; lia) Hnvs)
      as (s' & cs & Hturn & Hcalls & Hin & Hsame).
    exists s', cs. repeat split; try assumption. congruence.
Qed.

(** ** What the event bridge leaves alone *)

(** X4. The event handler writes nothing but the retry counter, the queue
    and the log: whatever the event, the flags, the credential slot, the
    stored credentials, the radio mode and the registered callback are as
    before. Events other than station-disconnected and got-IP also leave
    counter and queue alone and add at most one log line. *)
Theorem event_bridge_frame (event : esp_event) (s s' : state) :
  wifi_app_event_handler event s = Done tt s' ->
  wifi_app_event_group s' = wifi_app_event_group s /\
  wifi_config s' = wifi_config s /\
  nvs_sta_creds s' = nvs_sta_creds s /\
  wifi_mode s' = wifi_mode s /\
  wifi_connected_event_cb s' = wifi_connected_event_cb s /\
  match event with
  | WIFI_EVENT (WIFI_EVENT_STA_DISCONNECTED _) | IP_EVENT IP_EVENT_STA_GOT_IP => True
  | _ =>
      g_retry_number s' = g_retry_number s /\
      wifi_app_queue s' = wifi_app_queue s /\
      (trace s' = trace s \/ exists text, trace s' = trace s ++ [Call_ESP_LOGI text])
  end.
Proof.
  destruct event as [[]|[]|]; fw_cases; try discriminate; intros [= <-]; fields;
    repeat split; try reflexivity;
    solve [left; reflexivity | right; eexists; reflexivity].
Qed.

(** X5. The event handler never aborts the firmware, whatever the driver
    answers to the reconnect it issues; it is suspended only in its send,
    that is on a full queue, for a got-IP event or for a disconnect with
    the counter at or above the cap. *)
Theorem event_bridge_never_aborts (event : esp_event) (s : state) :
  wifi_app_event_handler event s <> Aborted /\
  (wifi_app_event_handler event s = Blocked ->
   ~ queue_has_room s /\
   (event = IP_EVENT IP_EVENT_STA_GOT_IP \/
    exists reason, event = WIFI_EVENT (WIFI_EVENT_STA_DISCONNECTED reason) /\
                   MAX_CONNECTION_RETRIES <= g_retry_number s)).
Proof.
  unfold queue_has_room.
  destruct event as [[]|[]|]; fw_cases; split; try discriminate; intros _;
    repeat match goal with
           | H : (_ <? _)%nat = false |- _ => apply Nat.ltb_ge in H
           | H : (_ <? _) = false |- _ => apply Z.ltb_ge in H
           end;
    (split; [lia|]);
    solve [left; reflexivity | right; eexists; split; [reflexivity|assumption]].
Qed.

(** ** Reconnects between two turns of the task *)

Ltac give_calls :=
  first [ exists (@nil call); split;
          [unfold calls_since; fields; rewrite app_nil_r; reflexivity|]
        | eexists; split;
          [unfold calls_since; fields; rewrite <- ?app_assoc; reflexivity|] ].

Lemma step_reconnects (i : input) (s s' : state) (p : list wifi_app_message_e) :
  i <> Task_turn ->
  INT_MIN <= g_retry_number s -> MAX_CONNECTION_RETRIES <= INT_MAX ->
  step i s = Done p s' ->
  exists cs,
    calls_since s s' cs /\
    Z.of_nat (reconnects cs) = g_retry_number s' - g_retry_number s /\
    g_retry_number s <= g_retry_number s' <=
      Z.max (g_retry_number s) MAX_CONNECTION_RETRIES.
Proof.
  intros Hi Hlo Hmax. destruct i as [event| | | | |]; try contradiction; cbn [step].
  - destruct event as [[]|[]|]; fw_cases; try discriminate; intros [= <- <-];
      fields;
      try match goal with
          | H : (_ <? _) = true |- _ =>
              apply Z.ltb_lt in H; rewrite wrap_int_in_range by lia
          end;
      give_calls; cbn; lia.
  - fw_cases; try discriminate; intros [= <- <-]; give_calls; cbn; lia.
  - fw_cases; try discriminate; intros [= <- <-]; give_calls; cbn; lia.
  - fw_cases; intros [= <- <-]; give_calls; cbn; lia.
  - fw_cases; intros [= <- <-]; give_calls; cbn; lia.
Qed.

Lemma run_reconnects_between_turns (inputs : list input) :
  forall (s s' : state) (p : list wifi_app_message_e),
    no_task_turn inputs = true ->
    INT_MIN <= g_retry_number s -> MAX_CONNECTION_RETRIES <= INT_MAX ->
    run inputs s = Done p s' ->
    exists cs,
      calls_since s s' cs /\
      Z.of_nat (reconnects cs) = g_retry_number s' - g_retry_number s /\
      g_retry_number s <= g_retry_number s' <=
        Z.max (g_retry_number s) MAX_CONNECTION_RETRIES.
Proof.
  induction inputs as [|i inputs IH]; intros s s' p Hno Hlo Hmax Hrun.
  - injection Hrun as <- <-. exists []. unfold calls_since.
    rewrite app_nil_r. cbn. repeat split; lia.
  - apply run_cons in Hrun. destruct Hrun as (p1 & s1 & p2 & Hstep & Hrun & ->).
    cbn [no_task_turn forallb] in Hno. apply andb_true_iff in Hno.
    destruct Hno as [Hi Hno].
    assert (Hi' : i <> Task_turn) by (intros ->; discriminate Hi).
    destruct (step_reconnects i s s1 p1 Hi' Hlo Hmax Hstep)
      as (cs1 & Hc1 & Hn1 & Hb1).
    destruct (IH s1 s' p2 Hno ltac:(lia) Hmax Hrun) as (cs2 & Hc2 & Hn2 & Hb2).
    exists (cs1 ++ cs2). unfold calls_since in *.
    rewrite Hc2, Hc1, <- app_assoc, reconnects_app. repeat split; lia.
Qed.

(** X6. Between two turns of the task, whatever the driver events, button
    presses and messages sent, each direct reconnect adds one to the retry
    counter and the counter does not pass the cap: from a counter r within
    the cap at most [MAX_CONNECTION_RETRIES] - r reconnects are issued, and
    none from a counter at or above it. *)
Theorem reconnects_bounded_between_turns (inputs : list input) (s s' : state)
  (p : list wifi_app_message_e) :
  no_task_turn inputs = true ->
  INT_MIN <= g_retry_number s -> MAX_CONNECTION_RETRIES <= INT_MAX ->
  run inputs s = Done p s' ->
  exists cs,
    calls_since s s' cs /\
    Z.of_nat (reconnects cs) = g_retry_number s' - g_retry_number s /\
    Z.of_nat (reconnects cs) <= Z.max 0 (MAX_CONNECTION_RETRIES - g_retry_number s).
Proof.
  intros Hno Hlo Hmax Hrun.
  destruct (run_reconnects_between_turns inputs s s' p Hno Hlo Hmax Hrun)
    as (cs & Hc & Hn & Hb).
  exists cs. repeat split; try assumption. lia.
Qed.

(** X7. The user-requested disconnect prevents automatic reconnection:
    once it has been processed on a connected device, no driver event,
    button press or message sent makes the bridge issue a reconnect until
    the task runs again; the counter stays at the cap. *)
Theorem user_disconnect_suppresses_reconnect (s s1 s2 : state)
  (inputs : list input) (p : list wifi_app_message_e) :
  INT_MIN <= MAX_CONNECTION_RETRIES <= INT_MAX ->
  ConnectedWithIp s = true ->
  wifi_app_task_switch WIFI_APP_MSG_USER_REQUESTED_STA_DISCONNECT s = Done tt s1 ->
  no_task_turn inputs = true ->
  run inputs s1 = Done p s2 ->
  exists cs,
    calls_since s1 s2 cs /\
    reconnects cs = 0%nat /\
    g_retry_number s2 = MAX_CONNECTION_RETRIES.
Proof.
  intros Hmax Hc Hsw Hno Hrun.
  assert (Hr1 : g_retry_number s1 = MAX_CONNECTION_RETRIES).
  { revert Hsw. unfold ConnectedWithIp in Hc. fw_unfold. rewrite Hc.
    fw_cases; try discriminate; intros [= <-]; fields;
      apply wrap_int_in_range; exact Hmax. }
  destruct (run_reconnects_between_turns inputs s1 s2 p Hno ltac:(lia) ltac:(lia) Hrun)
    as (cs & Hcs & Hn & Hb).
  exists cs. repeat split; try assumption; lia.
Qed.

(** ** The radio mode *)

Lemma switch_wifi_mode (msgID : wifi_app_message_e) (s s' : state) :
  wifi_app_task_switch msgID s = Done tt s' ->
  wifi_mode s' = wifi_mode s \/
  (wifi_mode s' = WIFI_MODE_AP /\
   msgID = WIFI_APP_MSG_USER_REQUESTED_STA_DISCONNECT).
Proof.
  destruct msgID; fw_cases; try discriminate; intros [= <-]; fields;
    solve [left; reflexivity | right; split; reflexivity].
Qed.

Lemma step_wifi_mode (i : input) (s s' : state) (p : list wifi_app_message_e) :
  step i s = Done p s' ->
  wifi_mode s' = wifi_mode s \/
  (wifi_mode s' = WIFI_MODE_AP /\
   p = [WIFI_APP_MSG_USER_REQUESTED_STA_DISCONNECT]).
Proof.
  destruct i as [event| | | | |]; cbn [step].
  - destruct event as [[]|[]|]; fw_cases; try discriminate; intros [= <- <-];
      left; reflexivity.
  - fw_cases; try discriminate; intros [= <- <-]; left; reflexivity.
  - fw_cases; try discriminate; intros [= <- <-]; left; reflexivity.
  - fw_cases; intros [= <- <-]; left; reflexivity.
  - fw_cases; intros [= <- <-]; left; reflexivity.
  - intros Hstep. apply step_task_turn in Hstep.
    destruct Hstep as (msgID & q & Hq & -> & Hsw).
    apply switch_wifi_mode in Hsw. fields.
    destruct Hsw as [Hsw | [Hsw ->]]; [left | right; split]; auto.
Qed.

Lemma run_wifi_mode (inputs : list input) :
  forall (s s' : state) (p : list wifi_app_message_e),
    run inputs s = Done p s' ->
    wifi_mode s' = wifi_mode s \/
    (wifi_mode s' = WIFI_MODE_AP /\
     In WIFI_APP_MSG_USER_REQUESTED_STA_DISCONNECT p).
Proof.
  induction inputs as [|i inputs IH]; intros s s' p Hrun.
  - injection Hrun as <- <-. left. reflexivity.
  - apply run_cons in Hrun. destruct Hrun as (p1 & s1 & p2 & Hstep & Hrun & ->).
    destruct (IH s1 s' p2 Hrun) as [Hsame | [Hap Hin]].
    + destruct (step_wifi_mode i s s1 p1 Hstep) as [Hsame1 | [Hap1 ->]].
      * left. congruence.
      * right. split; [congruence|]. cbn. left. reflexivity.
    + right. split; [exact Hap|]. apply in_or_app. right. exact Hin.
Qed.

(** X8. The only mode switch of the orchestrator is the one to
    access-point-only mode of the user-requested disconnect, and nothing
    switches back: a reachable state is in AP+STA mode, or in AP-only mode
    after a processed [WIFI_APP_MSG_USER_REQUESTED_STA_DISCONNECT]; from
    AP-only mode every further state is in AP-only mode, also after a
    later connection attempt. *)
Theorem radio_mode_only_leaves_apsta
  (stored : option wifi_sta_config_t) (inputs inputs' : list input)
  (processed processed' : list wifi_app_message_e) (s s' : state) :
  run inputs (wifi_app_start stored) = Done processed s ->
  run inputs' s = Done processed' s' ->
  (wifi_mode s = WIFI_MODE_APSTA \/
   (wifi_mode s = WIFI_MODE_AP /\
    In WIFI_APP_MSG_USER_REQUESTED_STA_DISCONNECT processed)) /\
  (wifi_mode s = WIFI_MODE_AP -> wifi_mode s' = WIFI_MODE_AP).
Proof.
  intros Hrun Hrun'. split.
  - destruct (run_wifi_mode inputs _ _ _ Hrun) as [Hsame | H]; [left | right]; auto.
  - intros Hap.
    destruct (run_wifi_mode inputs' _ _ _ Hrun') as [Hsame | [H _]]; congruence.
Qed.

(** ** The connected-callback *)

Lemma callback_calls_app (cs cs' : list call) :
  callback_calls (cs ++ cs') = callback_calls cs ++ callback_calls cs'.
Proof. unfold callback_calls. apply flat_map_app. Qed.

(** X9. A callback registered with [wifi_app_set_callback] is the one the
    next successful connection invokes, once and as the last call of the
    handler, after the LED, the monitor and the store; registering the null
    pointer makes the handler invoke nothing. Either way the registration
    replaces what was registered before. *)
Theorem registered_callback_invoked_last (s : state)
  (cb : option wifi_connected_event_callback_t) :
  exists s1 s2 cs,
    wifi_app_set_callback cb s = Done tt s1 /\
    wifi_app_task_switch WIFI_APP_MSG_STA_CONNECTED_GOT_IP s1 = Done tt s2 /\
    calls_since s s2 cs /\
    match cb with
    | Some f =>
        callback_calls cs = [f] /\
        exists cs', cs = cs' ++ [Call_wifi_connected_event_cb f]
    | None => callback_calls cs = []
    end.
Proof.
  eexists. 
  destruct (sta_connected_got_ip_spec (set_wifi_connected_event_cb cb s))
    as (s2 & Hrun & Hcalls & _).
  exists s2. eexists. split; [reflexivity|]. split; [exact Hrun|].
  unfold calls_since in *. fields. split; [exact Hcalls|].
  unfold UsingSavedCredentials. fields.
  destruct cb as [f|];
    destruct (bits_and (wifi_app_event_group s) WIFI_APP_CONNECTING_USING_SAVED_CREDS_BIT);
    cbn; try reflexivity; (split; [reflexivity|]).
  - exists [Call_ESP_LOGI "WIFI_APP_MSG_STA_CONNECTED_GOT_IP";
            Call_rgb_led_wifi_connected;
            Call_http_server_monitor_send_message HTTP_MSG_WIFI_CONNECT_SUCCESS].
    reflexivity.
  - exists [Call_ESP_LOGI "WIFI_APP_MSG_STA_CONNECTED_GOT_IP";
            Call_rgb_led_wifi_connected;
            Call_http_server_monitor_send_message HTTP_MSG_WIFI_CONNECT_SUCCESS;
            Call_app_nvs_save_sta_creds (wifi_config s)].
    reflexivity.
Qed.

(** ** When the orchestrator stops *)

(** X10. Processing [WIFI_APP_MSG_CONNECTING_FROM_HTTP_SERVER] asks the
    driver to take the configuration of the slot and then to connect. When
    the driver accepts both requests the handler returns, with exactly
    these two driver calls and the monitor's 'connect initiated' in the
    history, InitiatedFromConfigService set and the counter at zero; when
    it rejects either of them the handler does not return: the firmware
    aborts. *)
Theorem connecting_aborts_when_driver_rejects (s : state) :
  let h := trace s ++ [Call_ESP_LOGI "WIFI_APP_MSG_CONNECTING_FROM_HTTP_SERVER"] in
  let cfg := Call_esp_wifi_set_config_STA (wifi_config s) in
  if (driver_status cfg h =? ESP_OK) &&
     (driver_status Call_esp_wifi_connect (h ++ [cfg]) =? ESP_OK)
  then exists s',
         wifi_app_task_switch WIFI_APP_MSG_CONNECTING_FROM_HTTP_SERVER s = Done tt s' /\
         trace s' = h ++ [cfg; Call_esp_wifi_connect;
                          Call_http_server_monitor_send_message HTTP_MSG_WIFI_CONNECT_INIT] /\
         InitiatedFromConfigService s' = true /\
         g_retry_number s' = 0
  else wifi_app_task_switch WIFI_APP_MSG_CONNECTING_FROM_HTTP_SERVER s = Aborted.
Proof.
  cbv zeta. fw_unfold.
  destruct (driver_status _ _ =? ESP_OK) eqn:Hcfg; cbn [andb]; fw_unfold;
    [|reflexivity].
  destruct (driver_status Call_esp_wifi_connect _ =? ESP_OK) eqn:Hconn; fw_unfold;
    [|reflexivity].
  eexists. split; [reflexivity|]. fields. rewrite <- !app_assoc. cbn [app].
  repeat split; try reflexivity. flags. reflexivity.
Qed.

(** X11. The switch of the task is suspended only in the send of a load on
    a full queue, and aborts only where it checks a driver call that the
    driver has rejected: in a load with stored credentials, in a
    connection from the HTTP server, in a user-requested disconnect of a
    connected device. Every other message is processed to the end whatever
    the driver does. *)
Theorem switch_stops_only_on_full_queue_or_rejection
  (msgID : wifi_app_message_e) (s : state) :
  (wifi_app_task_switch msgID s = Blocked ->
   msgID = WIFI_APP_MSG_LOAD_SAVED_CREDENTIALS /\ ~ queue_has_room s) /\
  (wifi_app_task_switch msgID s = Aborted ->
   ~ driver_ok /\
   ((msgID = WIFI_APP_MSG_LOAD_SAVED_CREDENTIALS /\ nvs_sta_creds s <> None) \/
    msgID = WIFI_APP_MSG_CONNECTING_FROM_HTTP_SERVER \/
    (msgID = WIFI_APP_MSG_USER_REQUESTED_STA_DISCONNECT /\ ConnectedWithIp s = true))).
Proof.
  unfold queue_has_room, ConnectedWithIp, driver_ok.
  destruct msgID; fw_cases; split; intros H; try discriminate H;
    repeat match goal with
           | Hn : (_ <? _)%nat = false |- _ => apply Nat.ltb_ge in Hn
           end;
    try (split; [reflexivity | lia]);
    (split;
     [ intros Hok;
       repeat match goal with
              | Hs : (driver_status _ _ =? ESP_OK) = false |- _ =>
                  rewrite Hok in Hs; discriminate Hs
              end
     | first [ left; split; [reflexivity | congruence]
             | right; left; reflexivity
             | right; right; split; reflexivity ] ]).
Qed.

(** ** Where the store is written *)

Lemma persist_calls_app (cs cs' : list call) :
  persist_calls (cs ++ cs') = persist_calls cs ++ persist_calls cs'.
Proof. unfold persist_calls. apply filter_app. Qed.

Lemma clear_calls_app (cs cs' : list call) :
  clear_calls (cs ++ cs') = clear_calls cs ++ clear_calls cs'.
Proof. unfold clear_calls. apply filter_app. Qed.

Ltac store_calls :=
  give_calls; cbn; split; intros H;
  first [ exfalso; apply H; reflexivity
        | reflexivity
        | left; reflexivity
        | right; reflexivity ].

Lemma switch_store_calls (msgID : wifi_app_message_e) (s s' : state) :
  wifi_app_task_switch msgID s = Done tt s' ->
  exists cs,
    calls_since s s' cs /\
    (persist_calls cs <> [] -> msgID = WIFI_APP_MSG_STA_CONNECTED_GOT_IP) /\
    (clear_calls cs <> [] ->
     msgID = WIFI_APP_MSG_STA_DISCONNECTED \/
     msgID = WIFI_APP_MSG_USER_REQUESTED_STA_DISCONNECT).
Proof.
  destruct msgID; fw_cases; try discriminate; intros [= <-]; store_calls.
Qed.

Lemma step_store_calls (i : input) (s s' : state) (p : list wifi_app_message_e) :
  step i s = Done p s' ->
  exists cs,
    calls_since s s' cs /\
    (persist_calls cs <> [] -> p = [WIFI_APP_MSG_STA_CONNECTED_GOT_IP]) /\
    (clear_calls cs <> [] ->
     p = [WIFI_APP_MSG_STA_DISCONNECTED] \/
     p = [WIFI_APP_MSG_USER_REQUESTED_STA_DISCONNECT]).
Proof.
  destruct i as [event| | | | |]; cbn [step].
  - destruct event as [[]|[]|]; fw_cases; try discriminate; intros [= <- <-];
      store_calls.
  - fw_cases; try discriminate; intros [= <- <-]; store_calls.
  - fw_cases; try discriminate; intros [= <- <-]; store_calls.
  - fw_cases; intros [= <- <-]; store_calls.
  - fw_cases; intros [= <- <-]; store_calls.
  - intros Hstep. apply step_task_turn in Hstep.
    destruct Hstep as (msgID & q & Hq & -> & Hsw).
    destruct (switch_store_calls msgID _ _ Hsw) as (cs & Hcs & Hp & Hc).
    exists cs. unfold calls_since in *. fields. split; [exact Hcs|].
    split.
    + intros H. rewrite (Hp H). reflexivity.
    + intros H. destruct (Hc H) as [-> | ->]; [left | right]; reflexivity.
Qed.

Lemma run_store_calls (inputs : list input) :
  forall (s s' : state) (p : list wifi_app_message_e),
    run inputs s = Done p s' ->
    exists cs,
      calls_since s s' cs /\
      (persist_calls cs <> [] -> In WIFI_APP_MSG_STA_CONNECTED_GOT_IP p) /\
      (clear_calls cs <> [] ->
       In WIFI_APP_MSG_STA_DISCONNECTED p \/
       In WIFI_APP_MSG_USER_REQUESTED_STA_DISCONNECT p).
Proof.
  induction inputs as [|i inputs IH]; intros s s' p Hrun.
  - injection Hrun as <- <-. exists []. unfold calls_since. rewrite app_nil_r.
    repeat split; intros H; exfalso; apply H; reflexivity.
  - apply run_cons in Hrun. destruct Hrun as (p1 & s1 & p2 & Hstep & Hrun & ->).
    destruct (step_store_calls i s s1 p1 Hstep) as (cs1 & Hc1 & Hp1 & Hk1).
    destruct (IH s1 s' p2 Hrun) as (cs2 & Hc2 & Hp2 & Hk2).
    exists (cs1 ++ cs2). unfold calls_since in *.
    rewrite Hc2, Hc1, <- app_assoc. split; [reflexivity|].
    rewrite persist_calls_app, clear_calls_app. split; intros H.
    + apply in_or_app.
      destruct (persist_calls cs1) eqn:E1.
      * right. apply Hp2. exact H.
      * left. rewrite Hp1 by discriminate. left. reflexivity.
    + destruct (clear_calls cs1) eqn:E1.
      * destruct (Hk2 H) as [Hin | Hin]; [left | right]; apply in_or_app; right; exact Hin.
      * destruct Hk1 as [-> | ->]; try discriminate; [left | right]; left; reflexivity.
Qed.

(** X12. The store is written only while a connection message is being
    processed: in every reachable state, a call of [app_nvs_save_sta_creds]
    in the history means that a [WIFI_APP_MSG_STA_CONNECTED_GOT_IP] has been
    processed, and a call of [app_nvs_clear_sta_creds] that a
    [WIFI_APP_MSG_STA_DISCONNECTED] or a
    [WIFI_APP_MSG_USER_REQUESTED_STA_DISCONNECT] has. Submitting credentials
    alone persists nothing. *)
Theorem store_written_only_on_connection_messages
  (stored : option wifi_sta_config_t) (inputs : list input)
  (processed : list wifi_app_message_e) (s : state) :
  run inputs (wifi_app_start stored) = Done processed s ->
  (persist_calls (trace s) <> [] ->
   In WIFI_APP_MSG_STA_CONNECTED_GOT_IP processed) /\
  (clear_calls (trace s) <> [] ->
   In WIFI_APP_MSG_STA_DISCONNECTED processed \/
   In WIFI_APP_MSG_USER_REQUESTED_STA_DISCONNECT processed).
Proof.
  intros Hrun.
  destruct (run_store_calls inputs _ _ _ Hrun) as (cs & Hcs & Hp & Hk).
  unfold calls_since in Hcs. rewrite Hcs, persist_calls_app, clear_calls_app.
  split; intros H; [apply Hp | apply Hk]; exact H.
Qed.

(** ** Messages sent while the task does not run *)

(** They are queued in the order sent while they fit; the sender of the
    first one that does not fit is suspended. *)
Lemma run_send_messages (msgs : list wifi_app_message_e) :
  forall s : state,
    (List.length (wifi_app_queue s) <= WIFI_APP_QUEUE_LENGTH)%nat ->
    run (map Send_message msgs) s =
    if (List.length (wifi_app_queue s) + List.length msgs <=? WIFI_APP_QUEUE_LENGTH)%nat
    then Done [] (set_wifi_app_queue (wifi_app_queue s ++ msgs) s)
    else Blocked.
Proof.
  induction msgs as [|m msgs IH]; intros s Hlen.
  - cbn [map run List.length]. rewrite Nat.add_0_r.
    apply Nat.leb_le in Hlen. rewrite Hlen, app_nil_r.
    destruct s. reflexivity.
  - cbn [map run List.length]. unfold bind at 1. cbn [step].
    unfold bind at 1, wifi_app_send_message, xQueueSend.
    destruct (List.length (wifi_app_queue s) <? WIFI_APP_QUEUE_LENGTH)%nat eqn:Hroom.
    + apply Nat.ltb_lt in Hroom. unfold ret at 1. unfold bind.
      rewrite IH by (fields; rewrite length_app; cbn; lia).
      fields. rewrite length_app. cbn [List.length].
      replace (List.length (wifi_app_queue s) + 1 + List.length msgs)%nat
        with (List.length (wifi_app_queue s) + S (List.length msgs))%nat by lia.
      destruct (_ <=? _)%nat; [|reflexivity].
      unfold ret. rewrite <- app_assoc. reflexivity.
    + apply Nat.ltb_ge in Hroom.
      destruct (_ <=? _)%nat eqn:Hfit; [|reflexivity].
      apply Nat.leb_le in Hfit. lia.
Qed.

(** ** Startup and the reset button *)

(** X14. With a driver that accepts every request, the first two turns of
    the task process the load and then start the HTTP server, with or
    without stored credentials; UsingSavedCredentials is set exactly when
    credentials were stored; the queue is then empty, so that the task
    waits in its receive. *)
Theorem boot_starts_http_server (stored : option wifi_sta_config_t) :
  driver_ok ->
  exists s,
    run [Task_turn; Task_turn] (wifi_app_start stored) =
      Done [WIFI_APP_MSG_LOAD_SAVED_CREDENTIALS; WIFI_APP_MSG_START_HTTP_SERVER] s /\
    wifi_app_queue s = [] /\
    In Call_http_server_start (trace s) /\
    UsingSavedCredentials s = match stored with Some _ => true | None => false end /\
    InitiatedFromConfigService s = false /\
    ConnectedWithIp s = false /\
    reconnects (trace s) = match stored with Some _ => 1%nat | None => 0%nat end /\
    wifi_app_task s = Blocked.
Proof.
  intros Hok. unfold wifi_app_start, run, step.
  destruct stored as [c|]; fw_driver Hok;
    (eexists; split; [reflexivity|]); fields;
    repeat split; try reflexivity; cbn; tauto.
Qed.

(** X15. A press of the reset button with no message pending makes the
    next turn of the task process a user-requested disconnect: a connected
    device ends with the store erased, the radio in access-point-only mode
    and the counter at the cap, for a cap that fits the [int] counter; a device that is not connected keeps
    flags, store, mode and counter. In both cases ConnectedWithIp is clear
    afterwards, so a second press changes nothing but the log. *)
Theorem reset_button_disconnects_once (s : state) :
  driver_ok -> INT_MIN <= MAX_CONNECTION_RETRIES <= INT_MAX ->
  wifi_app_queue s = [] ->
  exists s' s'',
    run [Reset_button_pressed; Task_turn] s =
      Done [WIFI_APP_MSG_USER_REQUESTED_STA_DISCONNECT] s' /\
    wifi_app_queue s' = [] /\
    ConnectedWithIp s' = false /\
    (if ConnectedWithIp s
     then nvs_sta_creds s' = None /\ wifi_mode s' = WIFI_MODE_AP /\
          g_retry_number s' = MAX_CONNECTION_RETRIES
     else nvs_sta_creds s' = nvs_sta_creds s /\ wifi_mode s' = wifi_mode s /\
          g_retry_number s' = g_retry_number s /\
          wifi_app_event_group s' = wifi_app_event_group s) /\
    run [Reset_button_pressed; Task_turn] s' =
      Done [WIFI_APP_MSG_USER_REQUESTED_STA_DISCONNECT] s'' /\
    g_retry_number s'' = g_retry_number s' /\
    wifi_app_event_group s'' = wifi_app_event_group s' /\
    wifi_config s'' = wifi_config s' /\
    wifi_app_queue s'' = wifi_app_queue s' /\
    nvs_sta_creds s'' = nvs_sta_creds s' /\
    wifi_mode s'' = wifi_mode s' /\
    trace s'' = trace s' ++
      [Call_ESP_LOGI "WiFi Reset Button Pressed";
       Call_ESP_LOGI "WIFI_APP_MSG_USER_REQUESTED_STA_DISCONNECT"].
Proof.
  intros Hok Hmax Hq. unfold ConnectedWithIp, run, step.
  destruct (bits_and (wifi_app_event_group s) WIFI_APP_STA_CONNECTED_GOT_IP_BIT) eqn:Hip.
  - assert (Hoff : bits_and (Z.ldiff (wifi_app_event_group s)
                               WIFI_APP_STA_CONNECTED_GOT_IP_BIT)
                     WIFI_APP_STA_CONNECTED_GOT_IP_BIT = false)
      by (flags; reflexivity).
    fw_unfold. rewrite Hq. cbn [List.length Nat.ltb Nat.leb WIFI_APP_QUEUE_LENGTH app].
    fw_unfold. rewrite Hip. fw_driver Hok.
    rewrite (wrap_int_in_range _ Hmax).
    do 2 eexists. split; [reflexivity|]. fields. rewrite Hoff.
    cbn [List.length Nat.ltb Nat.leb WIFI_APP_QUEUE_LENGTH app]. fw_unfold.
    rewrite Hoff. fw_unfold.
    do 3 (split; [repeat split; reflexivity|]).
    split; [reflexivity|]. fields. rewrite <- !app_assoc. cbn [app].
    repeat split; reflexivity.
  - fw_unfold. rewrite Hq. cbn [List.length Nat.ltb Nat.leb WIFI_APP_QUEUE_LENGTH app].
    fw_unfold. rewrite Hip. fw_unfold.
    do 2 eexists. split; [reflexivity|]. fields. rewrite Hip.
    cbn [List.length Nat.ltb Nat.leb WIFI_APP_QUEUE_LENGTH app]. fw_unfold.
    rewrite Hip. fw_unfold.
    do 3 (split; [repeat split; reflexivity|]).
    split; [reflexivity|]. fields. rewrite <- !app_assoc. cbn [app].
    repeat split; reflexivity.
Qed.

(** ** The bits of the event group *)

Lemma switch_event_bits (msgID : wifi_app_message_e) (s s' : state) :
  In (wifi_app_event_group s) [0; 1; 2; 3; 4; 5; 6; 7] ->
  wifi_app_task_switch msgID s = Done tt s' ->
  In (wifi_app_event_group s') [0; 1; 2; 3; 4; 5; 6; 7].
Proof.
  intros Hin.
  destruct msgID; fw_cases; try discriminate; intros [= <-]; fields;
    try exact Hin;
    cbn [In] in Hin;
    repeat (destruct Hin as [Hin | Hin]; [rewrite <- Hin; vm_compute; tauto|]);
    contradiction.
Qed.

(** X16. The event group never carries anything but the three flags: in
    every reachable state its value is between 0 and 7. *)
Theorem reachable_event_group_three_bits
  (stored : option wifi_sta_config_t) (inputs : list input)
  (processed : list wifi_app_message_e) (s : state) :
  run inputs (wifi_app_start stored) = Done processed s ->
  0 <= wifi_app_event_group s <= 7.
Proof.
  assert (Hgen : forall inputs s0 s' p,
             In (wifi_app_event_group s0) [0; 1; 2; 3; 4; 5; 6; 7] ->
             run inputs s0 = Done p s' ->
             In (wifi_app_event_group s') [0; 1; 2; 3; 4; 5; 6; 7]).
  { clear. induction inputs as [|i inputs IH]; intros s0 s' p Hin Hrun.
    - injection Hrun as <- <-. exact Hin.
    - apply run_cons in Hrun. destruct Hrun as (p1 & s1 & p2 & Hstep & Hrun & ->).
      apply (IH s1 s' p2); [|exact Hrun].
      assert (Hi : i = Task_turn \/ i <> Task_turn)
        by (destruct i; (left; reflexivity) || (right; discriminate)).
      destruct Hi as [-> | Hi].
      + apply step_task_turn in Hstep. destruct Hstep as (msgID & q & _ & _ & Hsw).
        exact (switch_event_bits msgID (set_wifi_app_queue q s0) s1 Hin Hsw).
      + destruct (step_outside_task i s0 s1 p1 Hi Hstep) as [_ Hbits].
        rewrite Hbits. exact Hin. }
  intros Hrun.
  assert (Hin : In (wifi_app_event_group s) [0; 1; 2; 3; 4; 5; 6; 7]).
  { apply (Hgen inputs (wifi_app_start stored) s processed); [|exact Hrun].
    cbn. tauto. }
  cbn [In] in Hin.
  repeat (destruct Hin as [Hin | Hin]; [rewrite <- Hin; lia|]). contradiction.
Qed.

(** ** How the handlers compose *)

(** X17. A successful connection ends every origin: whatever the flags
    when [WIFI_APP_MSG_STA_CONNECTED_GOT_IP] is processed, also both origin
    flags at once, afterwards ConnectedWithIp is the only flag set; the
    LED and the monitor are notified first. *)
Theorem got_ip_leaves_only_connected (s : state) :
  exists s' cs,
    wifi_app_task_switch WIFI_APP_MSG_STA_CONNECTED_GOT_IP s = Done tt s' /\
    ConnectedWithIp s' = true /\
    UsingSavedCredentials s' = false /\
    InitiatedFromConfigService s' = false /\
    trace s' =
      trace s ++
      [Call_ESP_LOGI "WIFI_APP_MSG_STA_CONNECTED_GOT_IP";
       Call_rgb_led_wifi_connected;
       Call_http_server_monitor_send_message HTTP_MSG_WIFI_CONNECT_SUCCESS] ++ cs.
Proof.
  destruct (sta_connected_got_ip_spec s)
    as (s' & Hrun & Hcalls & _ & Hip & Hsaved & Hhttp & _).
  exists s'. eexists. repeat split; try assumption. exact Hcalls.
Qed.

(** What processing [WIFI_APP_MSG_STA_DISCONNECTED] does, as functions of
    the flags at entry. *)
Lemma sta_disconnected_spec (s : state) :
  exists s',
    wifi_app_task_switch WIFI_APP_MSG_STA_DISCONNECTED s = Done tt s' /\
    UsingSavedCredentials s' = false /\
    InitiatedFromConfigService s' =
      UsingSavedCredentials s && InitiatedFromConfigService s /\
    ConnectedWithIp s' = false /\
    nvs_sta_creds s' = (if UsingSavedCredentials s then None else nvs_sta_creds s) /\
    trace s' =
      trace s ++
      Call_ESP_LOGI "WIFI_APP_MSG_STA_DISCONNECTED" ::
      (if UsingSavedCredentials s
       then [Call_ESP_LOGI "Failed to connect using saved credentials";
             Call_app_nvs_clear_sta_creds]
       else if InitiatedFromConfigService s
       then [Call_ESP_LOGI "Failed to connect from HTTP server";
             Call_http_server_monitor_send_message HTTP_MSG_WIFI_CONNECT_FAIL]
       else [Call_ESP_LOGI "Unexpected disconnection"]).
Proof.
  unfold UsingSavedCredentials, InitiatedFromConfigService.
  fw_unfold.
  destruct (bits_and (wifi_app_event_group s) WIFI_APP_CONNECTING_USING_SAVED_CREDS_BIT) eqn:Hsaved;
    [|destruct (bits_and (wifi_app_event_group s) WIFI_APP_CONNECTING_FROM_HTTP_SERVER_BIT) eqn:Hhttp];
    destruct (bits_and (wifi_app_event_group s) WIFI_APP_STA_CONNECTED_GOT_IP_BIT) eqn:Hip;
    fw_unfold; eexists; (split; [reflexivity|]); fields;
    rewrite <- ?app_assoc; cbn [app andb];
    repeat split; try reflexivity; flags; try reflexivity; try assumption.
Qed.

(** X18. A disconnect is resolved against one origin at a time. With both
    origin flags set, the first [WIFI_APP_MSG_STA_DISCONNECTED] erases the
    store, tells the monitor nothing and leaves InitiatedFromConfigService
    set; it takes a second one to report the failure to the monitor. After
    two of them no flag is set, whatever the flags were. *)
Theorem two_disconnects_clear_every_flag (s : state) :
  exists s1 s2,
    wifi_app_task_switch WIFI_APP_MSG_STA_DISCONNECTED s = Done tt s1 /\
    wifi_app_task_switch WIFI_APP_MSG_STA_DISCONNECTED s1 = Done tt s2 /\
    UsingSavedCredentials s2 = false /\
    InitiatedFromConfigService s2 = false /\
    ConnectedWithIp s2 = false /\
    if UsingSavedCredentials s && InitiatedFromConfigService s
    then InitiatedFromConfigService s1 = true /\
         nvs_sta_creds s1 = None /\
         trace s1 = trace s ++
           [Call_ESP_LOGI "WIFI_APP_MSG_STA_DISCONNECTED";
            Call_ESP_LOGI "Failed to connect using saved credentials";
            Call_app_nvs_clear_sta_creds] /\
         trace s2 = trace s1 ++
           [Call_ESP_LOGI "WIFI_APP_MSG_STA_DISCONNECTED";
            Call_ESP_LOGI "Failed to connect from HTTP server";
            Call_http_server_monitor_send_message HTTP_MSG_WIFI_CONNECT_FAIL]
    else InitiatedFromConfigService s1 = false.
Proof.
  destruct (sta_disconnected_spec s)
    as (s1 & Hrun1 & Hsaved1 & Hhttp1 & Hip1 & Hnvs1 & Htrace1).
  destruct (sta_disconnected_spec s1)
    as (s2 & Hrun2 & Hsaved2 & Hhttp2 & Hip2 & Hnvs2 & Htrace2).
  exists s1, s2. split; [exact Hrun1|]. split; [exact Hrun2|].
  split; [exact Hsaved2|].
  split; [rewrite Hhttp2, Hsaved1; reflexivity|].
  split; [exact Hip2|].
  rewrite Hsaved1, Hhttp1 in Htrace2. rewrite Hhttp1.
  destruct (UsingSavedCredentials s), (InitiatedFromConfigService s);
    cbn [andb] in *; try reflexivity.
  repeat split; assumption.
Qed.

(** X20. The bridge hands the driver's news to the orchestrator: with no
    message pending, a got-IP event followed by a turn of the task leaves
    the device connected with both origin flags clear; a disconnect event
    with the counter at or above the cap followed by a turn of the task
    leaves it with ConnectedWithIp and UsingSavedCredentials clear. Neither
    depends on what the driver answers. *)
Theorem driver_events_reach_the_orchestrator (s : state) (reason : Z) :
  wifi_app_queue s = [] ->
  (exists s',
     run [got_ip; Task_turn] s = Done [WIFI_APP_MSG_STA_CONNECTED_GOT_IP] s' /\
     wifi_app_queue s' = [] /\
     ConnectedWithIp s' = true /\
     UsingSavedCredentials s' = false /\
     InitiatedFromConfigService s' = false) /\
  (MAX_CONNECTION_RETRIES <= g_retry_number s ->
   exists s',
     run [sta_disconnected reason; Task_turn] s =
       Done [WIFI_APP_MSG_STA_DISCONNECTED] s' /\
     wifi_app_queue s' = [] /\
     ConnectedWithIp s' = false /\
     UsingSavedCredentials s' = false /\
     reconnects (skipn (List.length (trace s)) (trace s')) = 0%nat).
Proof.
  intros Hq. split.
  - unfold run, step, got_ip, wifi_app_task, wifi_app_event_handler, ESP_LOGI,
      observe, wifi_app_send_message, xQueueSend, xQueueReceive, bind, ret.
    fields. rewrite Hq.
    cbn [List.length Nat.ltb Nat.leb WIFI_APP_QUEUE_LENGTH app]. fields.
    match goal with
    | |- context [wifi_app_task_switch WIFI_APP_MSG_STA_CONNECTED_GOT_IP ?s0] =>
        destruct (sta_connected_got_ip_spec s0)
          as (s' & Hrun & _ & _ & Hip & Hsaved & Hhttp & _ & _ & Hqueue & _)
    end.
    rewrite Hrun. exists s'. cbn [app]. split; [reflexivity|].
    repeat split; assumption.
  - intros Hcap. apply Z.ltb_ge in Hcap.
    unfold run, step, sta_disconnected, wifi_app_task, wifi_app_event_handler,
      ESP_LOGI, observe, wifi_app_send_message, xQueueSend, xQueueReceive, bind, ret.
    fields. rewrite Hcap, Hq.
    cbn [List.length Nat.ltb Nat.leb WIFI_APP_QUEUE_LENGTH app]. fields.
    match goal with
    | |- context [wifi_app_task_switch WIFI_APP_MSG_STA_DISCONNECTED ?s0] =>
        destruct (sta_disconnected_spec s0)
          as (s' & Hrun & Hsaved & _ & Hip & _ & Htrace)
    end.
    rewrite Hrun. exists s'. cbn [app]. split; [reflexivity|].
    split.
    + revert Hrun. fw_cases; intros [= <-]; reflexivity.
    + split; [exact Hip|]. split; [exact Hsaved|].
      rewrite Htrace. fields. rewrite <- !app_assoc.
      rewrite skipn_app, skipn_all, Nat.sub_diag. cbn [skipn app].
      repeat match goal with
             | |- context [if ?b then _ else _] => destruct b
             end; reflexivity.
Qed.

(** ** Order of processing *)

Lemma run_app (inputs inputs' : list input) :
  forall (s s1 s2 : state) (p1 p2 : list wifi_app_message_e),
    run inputs s = Done p1 s1 ->
    run inputs' s1 = Done p2 s2 ->
    run (inputs ++ inputs') s = Done (p1 ++ p2) s2.
Proof.
  induction inputs as [|i inputs IH]; intros s s1 s2 p1 p2 H1 H2.
  - injection H1 as <- <-. exact H2.
  - apply run_cons in H1. destruct H1 as (pa & sa & pb & Hstep & Hrun & ->).
    cbn [app run]. unfold bind at 1. rewrite Hstep.
    unfold bind at 1. rewrite (IH sa s1 s2 pb p2 Hrun H2).
    unfold ret. rewrite app_assoc. reflexivity.
Qed.

Lemma task_turn_head (s : state) (msgID : wifi_app_message_e)
  (q : list wifi_app_message_e) :
  driver_ok -> wifi_app_queue s = msgID :: q ->
  (List.length q <? WIFI_APP_QUEUE_LENGTH)%nat = true ->
  exists s',
    wifi_app_task s = Done msgID s' /\
    wifi_app_queue s' =
      match msgID with
      | WIFI_APP_MSG_LOAD_SAVED_CREDENTIALS => q ++ [WIFI_APP_MSG_START_HTTP_SERVER]
      | _ => q
      end.
Proof.
  intros Hok Hq Hroom.
  destruct msgID; fw_unfold; rewrite Hq; fw_ok_cases Hok Hroom;
    eexists; (split; [reflexivity|]); fields; reflexivity.
Qed.

Lemma task_turns_in_order (msgs : list wifi_app_message_e) :
  forall s : state,
    driver_ok -> wifi_app_queue s = msgs ->
    (List.length msgs <= WIFI_APP_QUEUE_LENGTH)%nat ->
    forallb not_load msgs = true ->
    exists s',
      run (repeat Task_turn (List.length msgs)) s = Done msgs s' /\
      wifi_app_queue s' = [].
Proof.
  induction msgs as [|m msgs IH]; intros s Hok Hq Hlen Hnl.
  - exists s. split; [reflexivity | exact Hq].
  - cbn [List.length] in Hlen. cbn [forallb] in Hnl.
    apply andb_true_iff in Hnl. destruct Hnl as [Hm Hnl].
    destruct (task_turn_head s m msgs Hok Hq ltac:(apply Nat.ltb_lt; lia))
      as (s1 & Hturn & Hq1).
    assert (Hq1' : wifi_app_queue s1 = msgs) by (destruct m; try discriminate Hm; exact Hq1).
    destruct (IH s1 Hok Hq1' ltac:(lia) Hnl) as (s' & Hrun & Hq').
    exists s'. split; [|exact Hq'].
    cbn [List.length repeat run step]. unfold bind at 1 2. rewrite Hturn.
    unfold ret at 1. unfold bind. rewrite Hrun. reflexivity.
Qed.

(** X19. The queue is first in, first out, and so is the orchestrator:
    messages sent to an idle task (none of them the load of startup, no
    more than the queue holds) are processed, one per turn and with a
    driver that accepts every request, in the order in which they were
    sent, after which the queue is empty again. *)
Theorem messages_processed_in_order (msgs : list wifi_app_message_e) (s : state) :
  driver_ok -> wifi_app_queue s = [] ->
  (List.length msgs <= WIFI_APP_QUEUE_LENGTH)%nat ->
  forallb not_load msgs = true ->
  exists s',
    run (map Send_message msgs ++ repeat Task_turn (List.length msgs)) s =
      Done msgs s' /\
    wifi_app_queue s' = [].
Proof.
  intros Hok Hq Hlen Hnl.
  pose proof (run_send_messages msgs s) as Hsend.
  rewrite Hq in Hsend. cbn [List.length Nat.add app] in Hsend.
  apply Nat.leb_le in Hlen. rewrite Hlen in Hsend. apply Nat.leb_le in Hlen.
  specialize (Hsend ltac:(lia)).
  destruct (task_turns_in_order msgs (set_wifi_app_queue msgs s) Hok eq_refl Hlen Hnl)
    as (s' & Hrun & Hq').
  exists s'. split; [|exact Hq'].
  exact (run_app _ _ _ _ _ _ _ Hsend Hrun).
Qed.

End WifiApp.

(** ** The scenarios, run on the code

    The retry cap is 5 and the driver accepts every request. *)

(** Evaluates a run and hands the state it ends in to [k]. *)
Ltac reached o k :=
  let r := eval vm_compute in o in
  match r with
  | Done _ ?s => k s
  end.

Lemma driver_accepts_ok : driver_ok driver_accepts.
Proof. intros c h. reflexivity. Qed.

(** Scenario E and the idempotent guard: a device connected with the saved
    credentials of "Home" is disconnected on request; the same request at
    startup only logs. *)
Lemma user_requested_sta_disconnect_witness :
  exists s,
    run 5 driver_accepts [Task_turn; Task_turn; got_ip; Task_turn]
        (wifi_app_start (Some home)) =
      Done [WIFI_APP_MSG_LOAD_SAVED_CREDENTIALS; WIFI_APP_MSG_START_HTTP_SERVER;
            WIFI_APP_MSG_STA_CONNECTED_GOT_IP] s /\
    (exists s',
       wifi_app_task_switch 5 driver_accepts
         WIFI_APP_MSG_USER_REQUESTED_STA_DISCONNECT s = Done tt s' /\
       g_retry_number s' = 5 /\
       nvs_sta_creds s' = None /\
       wifi_mode s' = WIFI_MODE_AP /\
       ConnectedWithIp s' = false) /\
    wifi_app_task_switch 5 driver_accepts
      WIFI_APP_MSG_USER_REQUESTED_STA_DISCONNECT (wifi_app_start None) =
    Done tt (record_call (Call_ESP_LOGI "WIFI_APP_MSG_USER_REQUESTED_STA_DISCONNECT")
               (wifi_app_start None)).
Proof.
  reached (run 5 driver_accepts [Task_turn; Task_turn; got_ip; Task_turn]
               (wifi_app_start (Some home)))
          ltac:(fun s => exists s;
                  pose proof (proj1 (user_requested_sta_disconnect 5 driver_accepts s)
                                driver_accepts_ok
                                ltac:(unfold INT_MIN, INT_MAX; lia) eq_refl) as H).
  split; [vm_compute; reflexivity|]. split.
  - destruct H as (s' & Hrun & Hretry & _ & Hnvs & Hmode & Hip & _).
    exists s'. repeat split; assumption.
  - exact (proj2 (user_requested_sta_disconnect 5 driver_accepts (wifi_app_start None))
             eq_refl).
Defined.

(** The configuration service submits "Office" on a device without stored
    credentials; the attempt fails and is escalated. Stored credentials and
    the slot are untouched. *)
Lemma config_service_failure_keeps_credentials_witness :
  exists s,
    run 5 driver_accepts
        [Task_turn; Task_turn; Write_wifi_config office;
         Send_message WIFI_APP_MSG_CONNECTING_FROM_HTTP_SERVER; Task_turn]
        (wifi_app_start None) =
      Done [WIFI_APP_MSG_LOAD_SAVED_CREDENTIALS; WIFI_APP_MSG_START_HTTP_SERVER;
            WIFI_APP_MSG_CONNECTING_FROM_HTTP_SERVER] s /\
    exists s',
      wifi_app_task_switch 5 driver_accepts WIFI_APP_MSG_STA_DISCONNECTED s =
        Done tt s' /\
      nvs_sta_creds s' = None /\
      wifi_config s' = office.
Proof.
  reached (run 5 driver_accepts
               [Task_turn; Task_turn; Write_wifi_config office;
                Send_message WIFI_APP_MSG_CONNECTING_FROM_HTTP_SERVER; Task_turn]
               (wifi_app_start None))
          ltac:(fun s => exists s;
                  pose proof (proj1 (config_service_failure_keeps_credentials
                                       5 driver_accepts s) eq_refl eq_refl) as H).
  split; [vm_compute; reflexivity|].
  destruct H as (s' & Hrun & Hnvs & Hcfg). exists s'. repeat split; assumption.
Defined.

(** Scenarios A and B, first turn: the startup load without and with
    stored credentials. *)
Lemma load_saved_credentials_witness :
  (exists s',
     wifi_app_task 5 driver_accepts (wifi_app_start None) =
       Done WIFI_APP_MSG_LOAD_SAVED_CREDENTIALS s' /\
     wifi_app_queue s' = [WIFI_APP_MSG_START_HTTP_SERVER] /\
     reconnects (trace s') = 0%nat /\
     wifi_app_event_group s' = 0) /\
  (exists s',
     wifi_app_task 5 driver_accepts (wifi_app_start (Some home)) =
       Done WIFI_APP_MSG_LOAD_SAVED_CREDENTIALS s' /\
     wifi_app_queue s' = [WIFI_APP_MSG_START_HTTP_SERVER] /\
     reconnects (trace s') = 1%nat /\
     UsingSavedCredentials s' = true).
Proof.
  split.
  - destruct (load_saved_credentials 5 driver_accepts (wifi_app_start None) []
                driver_accepts_ok (wifi_app_start_well_formed None) eq_refl)
      as (s' & Hrun & Hqueue & _ & Hcalls & Hbits).
    exists s'. repeat split; try assumption.
    rewrite Hcalls. reflexivity.
  - destruct (load_saved_credentials 5 driver_accepts (wifi_app_start (Some home)) []
                driver_accepts_ok (wifi_app_start_well_formed (Some home)) eq_refl)
      as (s' & Hrun & Hqueue & _ & Hcalls & _ & Hsaved & _).
    exists s'. repeat split; try assumption.
    rewrite Hcalls. reflexivity.
Defined.

(** A submission of the configuration service met with the counter at the
    cap, and the load of startup taken up after the driver has announced
    its station and access point. *)
Lemma retry_counter_at_connection_attempt_witness :
  (exists s',
     wifi_app_task_switch 5 driver_accepts WIFI_APP_MSG_CONNECTING_FROM_HTTP_SERVER
       (set_g_retry_number 5 (set_wifi_config office (wifi_app_start None))) =
       Done tt s' /\
     g_retry_number s' = 0) /\
  (exists s s' cs,
     run 5 driver_accepts
         [Driver_event (WIFI_EVENT WIFI_EVENT_STA_START);
          Driver_event (WIFI_EVENT WIFI_EVENT_AP_START);
          Set_callback (Some 1)]
         (wifi_app_start (Some home)) = Done [] s /\
     wifi_app_task 5 driver_accepts s = Done WIFI_APP_MSG_LOAD_SAVED_CREDENTIALS s' /\
     calls_since s s' cs /\
     In Call_esp_wifi_connect cs /\
     g_retry_number s' = 0).
Proof.
  split.
  - destruct (proj1 (retry_counter_at_connection_attempt 5 driver_accepts
                       driver_accepts_ok)
                (set_g_retry_number 5 (set_wifi_config office (wifi_app_start None))))
      as (s' & cs & Hrun & _ & _ & Hretry).
    exists s'. split; assumption.
  - reached (run 5 driver_accepts
                 [Driver_event (WIFI_EVENT WIFI_EVENT_STA_START);
                  Driver_event (WIFI_EVENT WIFI_EVENT_AP_START);
                  Set_callback (Some 1)]
                 (wifi_app_start (Some home)))
      ltac:(fun s =>
        assert (Hrun : run 5 driver_accepts
                         [Driver_event (WIFI_EVENT WIFI_EVENT_STA_START);
                          Driver_event (WIFI_EVENT WIFI_EVENT_AP_START);
                          Set_callback (Some 1)]
                         (wifi_app_start (Some home)) = Done [] s)
          by (vm_compute; reflexivity);
        destruct (proj2 (retry_counter_at_connection_attempt 5 driver_accepts
                           driver_accepts_ok)
                    home
                    [Driver_event (WIFI_EVENT WIFI_EVENT_STA_START);
                     Driver_event (WIFI_EVENT WIFI_EVENT_AP_START);
                     Set_callback (Some 1)]
                    [] s eq_refl Hrun)
          as (s' & cs & Hturn & Hcalls & Hin & Hretry);
        exists s, s', cs).
    repeat split; assumption.
Defined.

(** Scenario C: the saved credentials of "Home" fail; five disconnect
    events are answered by five direct reconnects, the sixth is escalated. *)
Lemma fast_path_fires_max_retries_before_escalation_witness :
  exists s s1 s2 cs,
    wifi_app_task 5 driver_accepts (wifi_app_start (Some home)) =
      Done WIFI_APP_MSG_LOAD_SAVED_CREDENTIALS s /\
    run 5 driver_accepts (map sta_disconnected [201; 201; 201; 201; 201]) s =
      Done [] s1 /\
    calls_since s s1 cs /\
    reconnects cs = 5%nat /\
    wifi_app_queue s1 = [WIFI_APP_MSG_START_HTTP_SERVER] /\
    wifi_app_event_handler 5 driver_accepts
      (WIFI_EVENT (WIFI_EVENT_STA_DISCONNECTED 201)) s1 = Done tt s2 /\
    wifi_app_queue s2 = [WIFI_APP_MSG_START_HTTP_SERVER; WIFI_APP_MSG_STA_DISCONNECTED].
Proof.
  assert (Hmax : 0 <= 5 <= INT_MAX) by (unfold INT_MAX; lia).
  reached (wifi_app_task 5 driver_accepts (wifi_app_start (Some home)))
          ltac:(fun s =>
                  destruct (proj2 (proj2 (fast_path_fires_max_retries_before_escalation
                                            5 driver_accepts Hmax))
                              (wifi_app_start (Some home)) s
                              [201; 201; 201; 201; 201] 201)
                    as (s1 & s2 & cs & Hrun & Hcalls & Hcount & Hq1 & _ & Hstep & _ & Hq2);
                  [ right; exists home; split; [reflexivity | vm_compute; reflexivity]
                  | unfold queue_has_room, WIFI_APP_QUEUE_LENGTH; cbn; lia
                  | reflexivity
                  | exists s, s1, s2, cs ]).
  repeat split; assumption.
Defined.

(** Boot with the stored credentials of "Home", success, then one drop
    recovered by the fast path: the second
    [WIFI_APP_MSG_STA_CONNECTED_GOT_IP] meets both origin flags clear and
    writes the credentials to NVS. *)
Lemma got_ip_without_origin_flag_persists_witness :
  exists s s' cs,
    run 5 driver_accepts
        [Task_turn; Task_turn; got_ip; Task_turn; sta_disconnected 8; got_ip]
        (wifi_app_start (Some home)) =
      Done [WIFI_APP_MSG_LOAD_SAVED_CREDENTIALS; WIFI_APP_MSG_START_HTTP_SERVER;
            WIFI_APP_MSG_STA_CONNECTED_GOT_IP] s /\
    wifi_app_task_switch 5 driver_accepts WIFI_APP_MSG_STA_CONNECTED_GOT_IP s =
      Done tt s' /\
    calls_since s s' cs /\
    In (Call_app_nvs_save_sta_creds home) cs /\
    nvs_sta_creds s' = Some home.
Proof.
  reached (run 5 driver_accepts
               [Task_turn; Task_turn; got_ip; Task_turn; sta_disconnected 8; got_ip]
               (wifi_app_start (Some home)))
          ltac:(fun s =>
                  destruct (got_ip_without_origin_flag_persists 5 driver_accepts s
                              eq_refl eq_refl)
                    as (s' & cs & Hrun & Hcalls & Hin & Hnvs);
                  exists s, s', cs).
  split; [vm_compute; reflexivity|]. repeat split; assumption.
Defined.

(** The same run with the task's last turn included: the only write to
    NVS is the one made by the second success, although no attempt came
    from the configuration service. *)
Example saved_credentials_persisted_after_fast_reconnect :
  exists s,
    run 5 driver_accepts
        [Task_turn; Task_turn; got_ip; Task_turn; sta_disconnected 8; got_ip; Task_turn]
        (wifi_app_start (Some home)) =
      Done [WIFI_APP_MSG_LOAD_SAVED_CREDENTIALS; WIFI_APP_MSG_START_HTTP_SERVER;
            WIFI_APP_MSG_STA_CONNECTED_GOT_IP; WIFI_APP_MSG_STA_CONNECTED_GOT_IP] s /\
    persist_calls (trace s) = [Call_app_nvs_save_sta_creds home] /\
    reconnects (trace s) = 2%nat.
Proof.
  eexists. split; [vm_compute; reflexivity|]. split; reflexivity.
Qed.

(** Scenario B: stored credentials, success; nothing is written to NVS. *)
Example scenario_saved_credentials_success :
  exists s,
    run 5 driver_accepts [Task_turn; Task_turn; got_ip; Task_turn]
        (wifi_app_start (Some home)) =
      Done [WIFI_APP_MSG_LOAD_SAVED_CREDENTIALS; WIFI_APP_MSG_START_HTTP_SERVER;
            WIFI_APP_MSG_STA_CONNECTED_GOT_IP] s /\
    UsingSavedCredentials s = false /\
    ConnectedWithIp s = true /\
    persist_calls (trace s) = [] /\
    In (Call_http_server_monitor_send_message HTTP_MSG_WIFI_CONNECT_SUCCESS) (trace s).
Proof.
  eexists. split; [vm_compute; reflexivity|].
  repeat split; try reflexivity. cbn. tauto.
Qed.

(** Scenario D: the configuration service submits "Office"; on success the
    credentials are written once. *)
Example scenario_config_service_success :
  exists s,
    run 5 driver_accepts
        [Task_turn; Task_turn; Write_wifi_config office;
         Send_message WIFI_APP_MSG_CONNECTING_FROM_HTTP_SERVER; Task_turn;
         got_ip; Task_turn]
        (wifi_app_start None) =
      Done [WIFI_APP_MSG_LOAD_SAVED_CREDENTIALS; WIFI_APP_MSG_START_HTTP_SERVER;
            WIFI_APP_MSG_CONNECTING_FROM_HTTP_SERVER;
            WIFI_APP_MSG_STA_CONNECTED_GOT_IP] s /\
    persist_calls (trace s) = [Call_app_nvs_save_sta_creds office] /\
    nvs_sta_creds s = Some office /\
    InitiatedFromConfigService s = false /\
    ConnectedWithIp s = true.
Proof.
  eexists. split; [vm_compute; reflexivity|]. repeat split; reflexivity.
Qed.

(** Two of the five fast-path retries are used up before the success;
    three remain after it. *)
Lemma got_ip_keeps_retry_counter_witness :
  exists s s' s1 s2 cs,
    run 5 driver_accepts
        [Task_turn; Task_turn; Write_wifi_config office;
         Send_message WIFI_APP_MSG_CONNECTING_FROM_HTTP_SERVER; Task_turn;
         sta_disconnected 201; sta_disconnected 201]
        (wifi_app_start None) =
      Done [WIFI_APP_MSG_LOAD_SAVED_CREDENTIALS; WIFI_APP_MSG_START_HTTP_SERVER;
            WIFI_APP_MSG_CONNECTING_FROM_HTTP_SERVER] s /\
    g_retry_number s = 2 /\
    wifi_app_task_switch 5 driver_accepts WIFI_APP_MSG_STA_CONNECTED_GOT_IP s =
      Done tt s' /\
    g_retry_number s' = 2 /\
    run 5 driver_accepts (map sta_disconnected [8; 8; 8]) s' = Done [] s1 /\
    calls_since s' s1 cs /\
    reconnects cs = 3%nat /\
    wifi_app_event_handler 5 driver_accepts
      (WIFI_EVENT (WIFI_EVENT_STA_DISCONNECTED 8)) s1 = Done tt s2 /\
    wifi_app_queue s2 = [WIFI_APP_MSG_STA_DISCONNECTED].
Proof.
  assert (Hmax : 5 <= INT_MAX) by (unfold INT_MAX; lia).
  reached (run 5 driver_accepts
               [Task_turn; Task_turn; Write_wifi_config office;
                Send_message WIFI_APP_MSG_CONNECTING_FROM_HTTP_SERVER; Task_turn;
                sta_disconnected 201; sta_disconnected 201]
               (wifi_app_start None))
          ltac:(fun s =>
                  reached (wifi_app_task_switch 5 driver_accepts
                             WIFI_APP_MSG_STA_CONNECTED_GOT_IP s)
                          ltac:(fun s' =>
                                  destruct (proj2 (got_ip_keeps_retry_counter 5 driver_accepts)
                                              s s' [8; 8; 8] 8)
                                    as (s1 & s2 & cs & Hrun & Hcalls & Hcount & _ & Hstep & _ & Hq);
                                  [ cbn; lia
                                  | exact Hmax
                                  | unfold queue_has_room, WIFI_APP_QUEUE_LENGTH; cbn; lia
                                  | vm_compute; reflexivity
                                  | reflexivity
                                  | exists s, s', s1, s2, cs ])).
  split; [vm_compute; reflexivity|].
  split; [reflexivity|].
  split; [vm_compute; reflexivity|].
  repeat split; assumption.
Defined.

(** Scenario C to its end, then a configuration-service attempt that
    succeeds. *)
Lemma connected_with_ip_since_last_got_ip_witness :
  exists processed s,
    run 5 driver_accepts
        ([Task_turn; Task_turn] ++ map sta_disconnected [201; 201; 201; 201; 201; 201] ++
         [Task_turn; Write_wifi_config office;
          Send_message WIFI_APP_MSG_CONNECTING_FROM_HTTP_SERVER; Task_turn;
          got_ip; Task_turn])
        (wifi_app_start (Some home)) = Done processed s /\
    last_connection_message processed = Some WIFI_APP_MSG_STA_CONNECTED_GOT_IP /\
    ConnectedWithIp s = true.
Proof.
  reached (run 5 driver_accepts
               ([Task_turn; Task_turn] ++
                map sta_disconnected [201; 201; 201; 201; 201; 201] ++
                [Task_turn; Write_wifi_config office;
                 Send_message WIFI_APP_MSG_CONNECTING_FROM_HTTP_SERVER; Task_turn;
                 got_ip; Task_turn])
               (wifi_app_start (Some home)))
          ltac:(fun s =>
                  eexists; exists s;
                  assert (Hrun : run 5 driver_accepts
                            ([Task_turn; Task_turn] ++
                             map sta_disconnected [201; 201; 201; 201; 201; 201] ++
                             [Task_turn; Write_wifi_config office;
                              Send_message WIFI_APP_MSG_CONNECTING_FROM_HTTP_SERVER;
                              Task_turn; got_ip; Task_turn])
                            (wifi_app_start (Some home)) = Done _ s)
                    by (vm_compute; reflexivity)).
  split; [exact Hrun|]. split; [reflexivity|].
  apply (connected_with_ip_since_last_got_ip 5 driver_accepts _ _ _ _ Hrun).
  reflexivity.
Defined.

(** The configuration service submits "Office" while the attempt with the
    saved credentials of "Home" is still in flight: both origin flags are
    set. *)
Lemma origin_flags_both_set_counterexample :
  exists s,
    run 5 driver_accepts
        [Task_turn; Task_turn; Write_wifi_config office;
         Send_message WIFI_APP_MSG_CONNECTING_FROM_HTTP_SERVER; Task_turn]
        (wifi_app_start (Some home)) =
      Done [WIFI_APP_MSG_LOAD_SAVED_CREDENTIALS; WIFI_APP_MSG_START_HTTP_SERVER;
            WIFI_APP_MSG_CONNECTING_FROM_HTTP_SERVER] s /\
    UsingSavedCredentials s = true /\
    InitiatedFromConfigService s = true.
Proof.
  eexists. split; [vm_compute; reflexivity|]. split; reflexivity.
Qed.

(** The same submission made after the saved-credential attempt has failed
    and been escalated keeps the origins apart. *)
Lemma origin_flags_exclusive_when_kept_apart_witness :
  exists processed s,
    run 5 driver_accepts
        ([Task_turn; Task_turn] ++ map sta_disconnected [201; 201; 201; 201; 201; 201] ++
         [Task_turn; Write_wifi_config office;
          Send_message WIFI_APP_MSG_CONNECTING_FROM_HTTP_SERVER; Task_turn])
        (wifi_app_start (Some home)) = Done processed s /\
    InitiatedFromConfigService s = true /\
    UsingSavedCredentials s && InitiatedFromConfigService s = false.
Proof.
  reached (run 5 driver_accepts
               ([Task_turn; Task_turn] ++
                map sta_disconnected [201; 201; 201; 201; 201; 201] ++
                [Task_turn; Write_wifi_config office;
                 Send_message WIFI_APP_MSG_CONNECTING_FROM_HTTP_SERVER; Task_turn])
               (wifi_app_start (Some home)))
          ltac:(fun s =>
                  eexists; exists s;
                  assert (Hrun : run 5 driver_accepts
                            ([Task_turn; Task_turn] ++
                             map sta_disconnected [201; 201; 201; 201; 201; 201] ++
                             [Task_turn; Write_wifi_config office;
                              Send_message WIFI_APP_MSG_CONNECTING_FROM_HTTP_SERVER;
                              Task_turn])
                            (wifi_app_start (Some home)) = Done _ s)
                    by (vm_compute; reflexivity)).
  split; [exact Hrun|]. split; [reflexivity|].
  apply (origin_flags_exclusive_when_kept_apart 5 driver_accepts _ _ _ _ Hrun).
  vm_compute. reflexivity.
Defined.

(** ** The further properties, run on the code *)

(** Evaluates a schedule and keeps the equation of its run. *)
Ltac reached_by inputs0 s0 k :=
  reached (run 5 driver_accepts inputs0 s0)
          ltac:(fun s =>
                  assert (Hrun : run 5 driver_accepts inputs0 s0 = Done _ s)
                    by (vm_compute; reflexivity);
                  k s).

Lemma task_turn_completes_witness :
  exists s',
    wifi_app_task 5 driver_accepts (wifi_app_start (Some home)) =
      Done WIFI_APP_MSG_LOAD_SAVED_CREDENTIALS s' /\
    wifi_app_queue s' = [WIFI_APP_MSG_START_HTTP_SERVER].
Proof.
  destruct (task_turn_completes 5 driver_accepts (wifi_app_start (Some home))
              WIFI_APP_MSG_LOAD_SAVED_CREDENTIALS []
              driver_accepts_ok (wifi_app_start_well_formed (Some home)) eq_refl)
    as (s' & Hrun & _ & Hq).
  exists s'. split; assumption.
Defined.

Lemma reachable_retry_counter_bounded_witness :
  exists processed s,
    run 5 driver_accepts eventful_day (wifi_app_start (Some home)) = Done processed s /\
    0 <= g_retry_number s <= 5.
Proof.
  reached_by eventful_day (wifi_app_start (Some home))
             ltac:(fun s => eexists; exists s).
  split; [exact Hrun|].
  apply (reachable_retry_counter_bounded 5 driver_accepts _ _ _ _
           ltac:(unfold INT_MAX; lia) Hrun).
Defined.

Lemma event_bridge_frame_witness :
  exists s',
    wifi_app_event_handler 5 driver_accepts (WIFI_EVENT WIFI_EVENT_AP_START)
      (wifi_app_start (Some home)) = Done tt s' /\
    nvs_sta_creds s' = Some home /\
    wifi_app_queue s' = [WIFI_APP_MSG_LOAD_SAVED_CREDENTIALS].
Proof.
  eexists. split; [reflexivity|].
  destruct (event_bridge_frame 5 driver_accepts (WIFI_EVENT WIFI_EVENT_AP_START)
              (wifi_app_start (Some home)) _ eq_refl)
    as (_ & _ & Hnvs & _ & _ & _ & Hq & _).
  split; [exact Hnvs | exact Hq].
Defined.

(** Two messages sent behind the pending load fill the queue; the got-IP
    event that follows suspends the event loop. *)
Lemma event_bridge_never_aborts_witness :
  exists s,
    run 5 driver_accepts
        [Send_message WIFI_APP_MSG_USER_REQUESTED_STA_DISCONNECT;
         Send_message WIFI_APP_MSG_USER_REQUESTED_STA_DISCONNECT]
        (wifi_app_start None) = Done [] s /\
    wifi_app_event_handler 5 driver_accepts (IP_EVENT IP_EVENT_STA_GOT_IP) s = Blocked /\
    ~ queue_has_room s.
Proof.
  reached_by [Send_message WIFI_APP_MSG_USER_REQUESTED_STA_DISCONNECT;
              Send_message WIFI_APP_MSG_USER_REQUESTED_STA_DISCONNECT]
             (wifi_app_start None)
             ltac:(fun s =>
                     exists s;
                     pose proof (proj2 (event_bridge_never_aborts 5 driver_accepts
                                          (IP_EVENT IP_EVENT_STA_GOT_IP) s) eq_refl)
                       as [Hfull _]).
  split; [exact Hrun|]. split; [reflexivity | exact Hfull].
Defined.

(** Seven disconnect events at startup: no more than five reconnects. *)
Lemma reconnects_bounded_between_turns_witness :
  exists s' cs,
    run 5 driver_accepts (map sta_disconnected [1; 2; 3; 4; 5; 6; 7])
        (wifi_app_start None) = Done [] s' /\
    calls_since (wifi_app_start None) s' cs /\
    Z.of_nat (reconnects cs) <= 5.
Proof.
  reached_by (map sta_disconnected [1; 2; 3; 4; 5; 6; 7]) (wifi_app_start None)
             ltac:(fun s =>
                     destruct (reconnects_bounded_between_turns 5 driver_accepts
                                 (map sta_disconnected [1; 2; 3; 4; 5; 6; 7])
                                 (wifi_app_start None) s [] eq_refl
                                 ltac:(unfold INT_MIN; cbn; lia)
                                 ltac:(unfold INT_MAX; lia) Hrun)
                       as (cs & Hcs & _ & Hle);
                     exists s, cs).
  split; [exact Hrun|]. split; [exact Hcs | exact Hle].
Defined.

(** A connected device is disconnected on request; the two disconnect
    events and the button press that follow cause no reconnect. *)
Lemma user_disconnect_suppresses_reconnect_witness :
  exists s s1 s2 cs,
    run 5 driver_accepts [Task_turn; Task_turn; got_ip; Task_turn]
        (wifi_app_start (Some home)) =
      Done [WIFI_APP_MSG_LOAD_SAVED_CREDENTIALS; WIFI_APP_MSG_START_HTTP_SERVER;
            WIFI_APP_MSG_STA_CONNECTED_GOT_IP] s /\
    wifi_app_task_switch 5 driver_accepts
      WIFI_APP_MSG_USER_REQUESTED_STA_DISCONNECT s = Done tt s1 /\
    run 5 driver_accepts [sta_disconnected 8; sta_disconnected 8; Reset_button_pressed]
        s1 = Done [] s2 /\
    calls_since s1 s2 cs /\
    reconnects cs = 0%nat.
Proof.
  reached (run 5 driver_accepts [Task_turn; Task_turn; got_ip; Task_turn]
               (wifi_app_start (Some home)))
    ltac:(fun s =>
      reached (wifi_app_task_switch 5 driver_accepts
                 WIFI_APP_MSG_USER_REQUESTED_STA_DISCONNECT s)
        ltac:(fun s1 =>
          reached (run 5 driver_accepts
                       [sta_disconnected 8; sta_disconnected 8; Reset_button_pressed] s1)
            ltac:(fun s2 =>
              assert (Hsw : wifi_app_task_switch 5 driver_accepts
                              WIFI_APP_MSG_USER_REQUESTED_STA_DISCONNECT s = Done tt s1)
                by (vm_compute; reflexivity);
              assert (Hrun : run 5 driver_accepts
                               [sta_disconnected 8; sta_disconnected 8;
                                Reset_button_pressed] s1 = Done [] s2)
                by (vm_compute; reflexivity);
              destruct (user_disconnect_suppresses_reconnect 5 driver_accepts
                          s s1 s2
                          [sta_disconnected 8; sta_disconnected 8; Reset_button_pressed]
                          []
                          ltac:(unfold INT_MIN, INT_MAX; lia) eq_refl Hsw eq_refl Hrun)
                as (cs & Hcs & Hzero & _);
              exists s, s1, s2, cs))).
  split; [vm_compute; reflexivity|]. repeat split; assumption.
Defined.

(** After the eventful day the radio is in access-point-only mode; a new
    submission of the configuration service is processed in that mode. *)
Lemma radio_mode_only_leaves_apsta_witness :
  exists processed s processed' s',
    run 5 driver_accepts eventful_day (wifi_app_start (Some home)) = Done processed s /\
    run 5 driver_accepts
        [Write_wifi_config home;
         Send_message WIFI_APP_MSG_CONNECTING_FROM_HTTP_SERVER; Task_turn] s =
      Done processed' s' /\
    wifi_mode s = WIFI_MODE_AP /\
    In WIFI_APP_MSG_USER_REQUESTED_STA_DISCONNECT processed /\
    wifi_mode s' = WIFI_MODE_AP /\
    reconnects (skipn (List.length (trace s)) (trace s')) = 1%nat.
Proof.
  reached_by eventful_day (wifi_app_start (Some home))
    ltac:(fun s =>
      reached (run 5 driver_accepts
                   [Write_wifi_config home;
                    Send_message WIFI_APP_MSG_CONNECTING_FROM_HTTP_SERVER; Task_turn] s)
        ltac:(fun s' =>
          assert (Hrun' : run 5 driver_accepts
                            [Write_wifi_config home;
                             Send_message WIFI_APP_MSG_CONNECTING_FROM_HTTP_SERVER;
                             Task_turn] s = Done _ s')
            by (vm_compute; reflexivity);
          destruct (radio_mode_only_leaves_apsta 5 driver_accepts
                      _ _ _ _ _ _ _ Hrun Hrun') as [Hmode Hstay];
          eexists; exists s; eexists; exists s')).
  split; [exact Hrun|]. split; [exact Hrun'|].
  destruct Hmode as [Hmode | [Hmode Hin]]; [discriminate Hmode|].
  split; [exact Hmode|]. split; [exact Hin|].
  split; [exact (Hstay Hmode) | reflexivity].
Defined.

(** A driver that refuses to connect aborts the attempt of the
    configuration service. *)
Example connecting_aborts_with_refusing_driver :
  wifi_app_task_switch 5 driver_refuses_connect
    WIFI_APP_MSG_CONNECTING_FROM_HTTP_SERVER
    (set_wifi_config office (wifi_app_start None)) = Aborted.
Proof. reflexivity. Qed.

Lemma switch_stops_only_on_full_queue_or_rejection_witness :
  (wifi_app_task_switch 5 driver_accepts WIFI_APP_MSG_LOAD_SAVED_CREDENTIALS
     (set_wifi_app_queue
        [WIFI_APP_MSG_STA_CONNECTED_GOT_IP; WIFI_APP_MSG_STA_CONNECTED_GOT_IP;
         WIFI_APP_MSG_STA_CONNECTED_GOT_IP] (wifi_app_start None)) = Blocked /\
   ~ queue_has_room
       (set_wifi_app_queue
          [WIFI_APP_MSG_STA_CONNECTED_GOT_IP; WIFI_APP_MSG_STA_CONNECTED_GOT_IP;
           WIFI_APP_MSG_STA_CONNECTED_GOT_IP] (wifi_app_start None))) /\
  (wifi_app_task_switch 5 driver_refuses_connect
     WIFI_APP_MSG_CONNECTING_FROM_HTTP_SERVER
     (set_wifi_config office (wifi_app_start None)) = Aborted /\
   ~ driver_ok driver_refuses_connect).
Proof.
  split.
  - split; [reflexivity|].
    exact (proj2 (proj1 (switch_stops_only_on_full_queue_or_rejection
                           5 driver_accepts WIFI_APP_MSG_LOAD_SAVED_CREDENTIALS
                           (set_wifi_app_queue
                              [WIFI_APP_MSG_STA_CONNECTED_GOT_IP;
                               WIFI_APP_MSG_STA_CONNECTED_GOT_IP;
                               WIFI_APP_MSG_STA_CONNECTED_GOT_IP]
                              (wifi_app_start None)))
                    eq_refl)).
  - split; [reflexivity|].
    exact (proj1 (proj2 (switch_stops_only_on_full_queue_or_rejection
                           5 driver_refuses_connect
                           WIFI_APP_MSG_CONNECTING_FROM_HTTP_SERVER
                           (set_wifi_config office (wifi_app_start None)))
                    eq_refl)).
Defined.

(** On the eventful day the store is written once and erased twice. *)
Lemma store_written_only_on_connection_messages_witness :
  exists processed s,
    run 5 driver_accepts eventful_day (wifi_app_start (Some home)) = Done processed s /\
    persist_calls (trace s) = [Call_app_nvs_save_sta_creds office] /\
    List.length (clear_calls (trace s)) = 2%nat /\
    In WIFI_APP_MSG_STA_CONNECTED_GOT_IP processed /\
    (In WIFI_APP_MSG_STA_DISCONNECTED processed \/
     In WIFI_APP_MSG_USER_REQUESTED_STA_DISCONNECT processed).
Proof.
  reached_by eventful_day (wifi_app_start (Some home))
    ltac:(fun s =>
      destruct (store_written_only_on_connection_messages 5 driver_accepts
                  _ _ _ _ Hrun) as [Hsave Hclear];
      eexists; exists s).
  split; [exact Hrun|]. split; [reflexivity|]. split; [reflexivity|].
  split; [apply Hsave | apply Hclear]; discriminate.
Defined.

Lemma boot_starts_http_server_witness :
  exists s,
    run 5 driver_accepts [Task_turn; Task_turn] (wifi_app_start (Some home)) =
      Done [WIFI_APP_MSG_LOAD_SAVED_CREDENTIALS; WIFI_APP_MSG_START_HTTP_SERVER] s /\
    wifi_app_queue s = [] /\
    UsingSavedCredentials s = true /\
    wifi_app_task 5 driver_accepts s = Blocked.
Proof.
  destruct (boot_starts_http_server 5 driver_accepts (Some home) driver_accepts_ok)
    as (s & Hrun & Hq & _ & Hsaved & _ & _ & _ & Hwait).
  exists s. repeat split; assumption.
Defined.

(** The button pressed on a device connected with the credentials of
    "Home", and pressed again. *)
Lemma reset_button_disconnects_once_witness :
  exists s s' s'',
    run 5 driver_accepts [Task_turn; Task_turn; got_ip; Task_turn]
        (wifi_app_start (Some home)) =
      Done [WIFI_APP_MSG_LOAD_SAVED_CREDENTIALS; WIFI_APP_MSG_START_HTTP_SERVER;
            WIFI_APP_MSG_STA_CONNECTED_GOT_IP] s /\
    run 5 driver_accepts [Reset_button_pressed; Task_turn] s =
      Done [WIFI_APP_MSG_USER_REQUESTED_STA_DISCONNECT] s' /\
    nvs_sta_creds s' = None /\
    wifi_mode s' = WIFI_MODE_AP /\
    run 5 driver_accepts [Reset_button_pressed; Task_turn] s' =
      Done [WIFI_APP_MSG_USER_REQUESTED_STA_DISCONNECT] s'' /\
    nvs_sta_creds s'' = None /\
    wifi_mode s'' = WIFI_MODE_AP.
Proof.
  reached (run 5 driver_accepts [Task_turn; Task_turn; got_ip; Task_turn]
               (wifi_app_start (Some home)))
    ltac:(fun s =>
      destruct (reset_button_disconnects_once 5 driver_accepts s
                  driver_accepts_ok ltac:(unfold INT_MIN, INT_MAX; lia) eq_refl)
        as (s' & s'' & Hrun & _ & _ & Hif & Hrun' & _ & _ & _ & _ & Hnvs & Hmode & _);
      exists s, s', s'').
  cbn in Hif. destruct Hif as (Hnvs' & Hmode' & _).
  split; [vm_compute; reflexivity|].
  split; [exact Hrun|]. split; [exact Hnvs'|]. split; [exact Hmode'|].
  split; [exact Hrun'|]. split; congruence.
Defined.

Lemma reachable_event_group_three_bits_witness :
  exists processed s,
    run 5 driver_accepts eventful_day (wifi_app_start (Some home)) = Done processed s /\
    0 <= wifi_app_event_group s <= 7.
Proof.
  reached_by eventful_day (wifi_app_start (Some home))
             ltac:(fun s => eexists; exists s).
  split; [exact Hrun|].
  apply (reachable_event_group_three_bits 5 driver_accepts _ _ _ _ Hrun).
Defined.

Lemma two_disconnects_clear_every_flag_witness :
  exists s s1 s2,
    run 5 driver_accepts
        [Task_turn; Task_turn; Write_wifi_config office;
         Send_message WIFI_APP_MSG_CONNECTING_FROM_HTTP_SERVER; Task_turn]
        (wifi_app_start (Some home)) =
      Done [WIFI_APP_MSG_LOAD_SAVED_CREDENTIALS; WIFI_APP_MSG_START_HTTP_SERVER;
            WIFI_APP_MSG_CONNECTING_FROM_HTTP_SERVER] s /\
    wifi_app_task_switch 5 driver_accepts WIFI_APP_MSG_STA_DISCONNECTED s = Done tt s1 /\
    wifi_app_task_switch 5 driver_accepts WIFI_APP_MSG_STA_DISCONNECTED s1 = Done tt s2 /\
    InitiatedFromConfigService s1 = true /\
    nvs_sta_creds s1 = None /\
    wifi_app_event_group s2 = 0.
Proof.
  reached (run 5 driver_accepts
               [Task_turn; Task_turn; Write_wifi_config office;
                Send_message WIFI_APP_MSG_CONNECTING_FROM_HTTP_SERVER; Task_turn]
               (wifi_app_start (Some home)))
    ltac:(fun s =>
      destruct (two_disconnects_clear_every_flag 5 driver_accepts s)
        as (s1 & s2 & Hrun1 & Hrun2 & _ & _ & _ & Hboth);
      exists s, s1, s2).
  cbn in Hboth. destruct Hboth as (Hhttp & Hnvs & _ & _).
  split; [vm_compute; reflexivity|].
  split; [exact Hrun1|]. split; [exact Hrun2|].
  split; [exact Hhttp|]. split; [exact Hnvs|].
  vm_compute in Hrun1. injection Hrun1 as <-.
  vm_compute in Hrun2. injection Hrun2 as <-. reflexivity.
Defined.

(** A got-IP event, and a disconnect event at the cap, on the device that
    the user has just disconnected. *)
Lemma driver_events_reach_the_orchestrator_witness :
  exists processed s s' s'',
    run 5 driver_accepts eventful_day (wifi_app_start (Some home)) = Done processed s /\
    run 5 driver_accepts [got_ip; Task_turn] s =
      Done [WIFI_APP_MSG_STA_CONNECTED_GOT_IP] s' /\
    ConnectedWithIp s' = true /\
    run 5 driver_accepts [sta_disconnected 8; Task_turn] s =
      Done [WIFI_APP_MSG_STA_DISCONNECTED] s'' /\
    ConnectedWithIp s'' = false.
Proof.
  reached_by eventful_day (wifi_app_start (Some home))
    ltac:(fun s =>
      destruct (driver_events_reach_the_orchestrator 5 driver_accepts s 8 eq_refl)
        as [(s' & Hgot & _ & Hip & _) Hdisc];
      destruct (Hdisc ltac:(cbn; lia)) as (s'' & Hlost & _ & Hip' & _);
      eexists; exists s, s', s'').
  repeat split; assumption.
Defined.

(** A submission of the configuration service followed by a press of the
    button, both taken up by an idle task. *)
Lemma messages_processed_in_order_witness :
  exists s s',
    run 5 driver_accepts [Task_turn; Task_turn] (wifi_app_start None) =
      Done [WIFI_APP_MSG_LOAD_SAVED_CREDENTIALS; WIFI_APP_MSG_START_HTTP_SERVER] s /\
    run 5 driver_accepts
        [Send_message WIFI_APP_MSG_CONNECTING_FROM_HTTP_SERVER;
         Send_message WIFI_APP_MSG_USER_REQUESTED_STA_DISCONNECT;
         Task_turn; Task_turn] s =
      Done [WIFI_APP_MSG_CONNECTING_FROM_HTTP_SERVER;
            WIFI_APP_MSG_USER_REQUESTED_STA_DISCONNECT] s' /\
    wifi_app_queue s' = [].
Proof.
  reached (run 5 driver_accepts [Task_turn; Task_turn] (wifi_app_start None))
    ltac:(fun s =>
      destruct (messages_processed_in_order 5 driver_accepts
                  [WIFI_APP_MSG_CONNECTING_FROM_HTTP_SERVER;
                   WIFI_APP_MSG_USER_REQUESTED_STA_DISCONNECT] s
                  driver_accepts_ok eq_refl
                  ltac:(unfold WIFI_APP_QUEUE_LENGTH; cbn; lia) eq_refl)
        as (s' & Hrun & Hq);
      exists s, s').
  split; [vm_compute; reflexivity|]. split; [exact Hrun | exact Hq].
Defined.
